(** * ccusage: the OpenCode data loader and the Claude pricing resolver

    A shallow embedding of

    - [apps/opencode/src/data-loader.ts] (with [_sqlite.ts], the
      runtime-agnostic SQLite adapter it opens the database with), and
    - the pricing fetcher whose [getModelPricing] falls back to
      [CLAUDE_MODEL_ALIASES],

    followed by the properties the specification states about them.

    JavaScript numbers are IEEE 754 binary64 values: they are embedded as
    Rocq's primitive floats, so [data.cost > 0] is [PrimFloat.ltb] and
    [=== 0] is [PrimFloat.eqb].  A [Map<string, _>] is a [gmap string _].
    What the modules reach outside the program (the process environment,
    the file system, [node:path], [JSON.parse], the SQLite engine) is
    gathered in one record, [Host]; database calls are logged in a trace
    so that the lifetime of a handle can be read off a run. *)

From Stdlib Require Import Floats.
From stdpp Require Import gmap strings list fin_maps.

Set Warnings "-register-all,-inexact-float".

(* ===================================================================== *)
(** ** JavaScript values and control *)
(* ===================================================================== *)

Module Js.

(** A JavaScript number. *)
Abbreviation number := float.

(** [x > 0]. *)
Definition gt0 (x : number) : bool := PrimFloat.ltb 0 x.

(** [x <= 0]. *)
Definition le0 (x : number) : bool := PrimFloat.leb x 0.

(** [x === 0] on numbers ([-0 === 0] holds, [NaN === 0] does not). *)
Definition is0 (x : number) : bool := PrimFloat.eqb x 0.

(** The values [JSON.parse] builds.  An object has each key once. *)
Inductive json : Type :=
| JNull
| JBool (b : bool)
| JNum (n : number)
| JStr (s : string)
| JArr (items : list json)
| JObj (fields : gmap string json).

(** A thrown value. *)
Inductive Error : Type :=
| SyntaxError (message : string)
| SqliteError (message : string)
| OtherError (message : string).

(** How an evaluation ends: with a value, or by throwing. *)
Inductive Completion (A : Type) : Type :=
| Normal (value : A)
| Throw (e : Error).
Arguments Normal {A} value.
Arguments Throw {A} e.

(** A string is held as the bytes of its UTF-8 encoding, which is how
    the process environment holds it. *)

(** The string of the bytes [codes]. *)
Definition bytes (codes : list nat) : string :=
  foldr (fun n s => String (Ascii.ascii_of_nat n) s) EmptyString codes.

(** How many bytes the UTF-8 sequence that starts with [lead] has. *)
Definition utf8_width (lead : Ascii.ascii) : nat :=
  let n := Ascii.nat_of_ascii lead in
  if Nat.ltb n 192 then 1 else if Nat.ltb n 224 then 2 else if Nat.ltb n 240 then 3 else 4.

(** The characters of a string, each as the bytes that encode it; a
    sequence cut short by the end of the string is one character. *)
Fixpoint chars (s : string) : list string :=
  match s with
  | EmptyString => []
  | String a r1 =>
      match utf8_width a, r1 with
      | S (S w), String b r2 =>
          match w, r2 with
          | S w', String c r3 =>
              match w', r3 with
              | S _, String d r4 =>
                  String a (String b (String c (String d EmptyString))) :: chars r4
              | _, _ => String a (String b (String c EmptyString)) :: chars r3
              end
          | _, _ => String a (String b EmptyString) :: chars r2
          end
      | _, _ => String a EmptyString :: chars r1
      end
  end.

(** The characters [String.prototype.trim] strips, the WhiteSpace and
    LineTerminator code points of ECMAScript: TAB, LF, VT, FF, CR, SPACE,
    U+00A0, U+1680, U+2000 to U+200A, U+2028, U+2029, U+202F, U+205F,
    U+3000 and U+FEFF. *)
Definition white_space : list string :=
  bytes <$>
    [ [9]; [10]; [11]; [12]; [13]; [32];
      [194; 160];
      [225; 154; 128];
      [226; 128; 128]; [226; 128; 129]; [226; 128; 130]; [226; 128; 131];
      [226; 128; 132]; [226; 128; 133]; [226; 128; 134]; [226; 128; 135];
      [226; 128; 136]; [226; 128; 137]; [226; 128; 138];
      [226; 128; 168]; [226; 128; 169];
      [226; 128; 175];
      [226; 129; 159];
      [227; 128; 128];
      [239; 187; 191] ].

Definition is_white_space (ch : string) : bool := bool_decide (ch ∈ white_space).

(** The characters left once the white space in front is dropped. *)
Fixpoint drop_white_space (l : list string) : list string :=
  match l with
  | [] => []
  | ch :: rest => if is_white_space ch then drop_white_space rest else l
  end.

(** The string of the characters [l]. *)
Definition join (l : list string) : string := foldr String.append EmptyString l.

(** [s.trim()]: the white space is dropped in front and at the end. *)
Definition trim (s : string) : string :=
  join (rev (drop_white_space (rev (drop_white_space (chars s))))).

(** [new Map(entries)]: a later entry replaces an earlier one with its key. *)
Definition Map_of_entries {V : Type} (entries : list (string * V)) : gmap string V :=
  foldl (fun m kv => <[kv.1 := kv.2]> m) ∅ entries.

(** A [Date]: only its construction from a time value is used. *)
Inductive Date : Type :=
| new_Date (value : number).

End Js.

(* ===================================================================== *)
(** ** The part of valibot the loader uses *)
(* ===================================================================== *)

Module Valibot.
Import Js.

(** A schema, read through [v.safeParse]: the typed output of a value
    that passes, [None] for a value that raises an issue. *)
Definition Schema (A : Type) : Type := json -> option A.

(** [v.safeParse(schema, input)]; [success] is [is_Some] of the result. *)
Definition safeParse {A : Type} (schema : Schema A) (input : json) : option A :=
  schema input.

(** [v.number()]: [typeof value === 'number' && !isNaN(value)]. *)
Definition v_number : Schema number := fun j =>
  match j with
  | JNum n => if PrimFloat.is_nan n then None else Some n
  | _ => None
  end.

(** [v.string()]. *)
Definition v_string : Schema string := fun j =>
  match j with
  | JStr s => Some s
  | _ => None
  end.

(** [v.literal(lit)] for a string literal: [value === lit]. *)
Definition v_literal (lit : string) : Schema string := fun j =>
  match j with
  | JStr s => if decide (s = lit) then Some lit else None
  | _ => None
  end.

(** What [v.object] reads its entries from: [input && typeof input ===
    'object'] holds of objects and of arrays.  An array has none of the
    keys the schemas below ask for. *)
Definition object_input (j : json) : option (gmap string json) :=
  match j with
  | JObj fields => Some fields
  | JArr _ => Some ∅
  | _ => None
  end.

(** An entry [key: schema] of [v.object]: the key has to be there. *)
Definition entry {A : Type} (key : string) (schema : Schema A)
    (fields : gmap string json) : option A :=
  fields !! key ≫= schema.

(** An entry [key: v.optional(schema)]: a missing key is left out of the
    output, a present one goes through [schema]. *)
Definition entry_optional {A : Type} (key : string) (schema : Schema A)
    (fields : gmap string json) : option (option A) :=
  match fields !! key with
  | None => Some None
  | Some j => Some <$> schema j
  end.

(** An entry [key: v.optional(schema, dflt)]: [schema] runs on the value
    of the key, or on [dflt] when the key is missing. *)
Definition entry_optional_default {A : Type} (key : string) (schema : Schema A)
    (dflt : json) (fields : gmap string json) : option A :=
  schema (default dflt (fields !! key)).

End Valibot.

(* ===================================================================== *)
(** ** Row shapes of the OpenCode database *)
(* ===================================================================== *)

(** Raw row shape returned by the message query. *)
Module MessageRow.
Record t : Type := {
  id : string;
  session_id : string;
  time_created : Js.number;
  data : string;
}.
End MessageRow.

(** Raw row shape returned by the session query. *)
Module SessionRow.
Record t : Type := {
  id : string;
  parent_id : option string;
  title : string;
  project_id : string;
  directory : string;
}.
End SessionRow.

(* ===================================================================== *)
(** ** The host: everything the modules reach outside the program *)
(* ===================================================================== *)

Module Host.
Import Js.

(** What a database file answers once a connection to it exists. *)
Record Database : Type := {
  (** [db.exec('PRAGMA journal_mode = WAL')] *)
  exec_pragma : Completion unit;
  (** [prepare('SELECT ... FROM session').all()] *)
  select_session : Completion (list SessionRow.t);
  (** [prepare('SELECT ... FROM message WHERE json_extract(data,
      '$.role') = 'assistant'').all()] *)
  select_message : Completion (list MessageRow.t);
}.

Record t : Type := {
  (** [process.env] *)
  env : gmap string string;
  (** [process.cwd()] *)
  cwd : string;
  (** [path.resolve(p)] and [path.join(a, b)] of [node:path] *)
  path_resolve : string -> string;
  path_join : string -> string -> string;
  (** [isDirectorySync] and [isFileSync] of [path-type] *)
  isDirectorySync : string -> bool;
  isFileSync : string -> bool;
  (** [typeof globalThis.Bun !== 'undefined'] *)
  has_Bun : bool;
  (** [new Database(filePath, { readonly: true })] of [bun:sqlite] and
      [new DatabaseSync(filePath, { readOnly: true })] of [node:sqlite]:
      a connection, or a throw *)
  bun_sqlite : string -> Completion Database;
  node_sqlite : string -> Completion Database;
  (** [JSON.parse(text)]: a value, or a thrown [SyntaxError] *)
  JSON_parse : string -> Completion json;
}.

End Host.

(* ===================================================================== *)
(** ** Effects: a trace of database calls, and exceptions *)
(* ===================================================================== *)

Module Eff.
Import Js.

Inductive Runtime : Type := Bun | Node.

(** One call on the SQLite module or on a connection.  A connection is
    named by the file it was opened on. *)
Inductive Event : Type :=
| Opened (rt : Runtime) (filePath : string) (readonly : bool)
| Exec (filePath : string) (sql : string)
| Query (filePath : string) (sql : string)
| Closed (filePath : string).

(** A computation: how it ends and the calls it made, in order. *)
Definition M (A : Type) : Type := Completion A * list Event.

Definition ret {A : Type} (a : A) : M A := (Normal a, []).

Definition throw {A : Type} (e : Error) : M A := (Throw e, []).

Definition bind {A B : Type} (m : M A) (k : A -> M B) : M B :=
  match m with
  | (Normal a, tr) => let '(c, tr') := k a in (c, tr ++ tr')
  | (Throw e, tr) => (Throw e, tr)
  end.

(** One logged call that ends as [c]. *)
Definition call {A : Type} (ev : Event) (c : Completion A) : M A := (c, [ev]).

(** A host call that is not logged. *)
Definition lift {A : Type} (c : Completion A) : M A := (c, []).

(** [try { body } finally { fin }]: [fin] runs however [body] ends, and
    the completion of [body] stands unless [fin] throws. *)
Definition try_finally {A : Type} (body : M A) (fin : M unit) : M A :=
  let '(c, tr) := body in
  let '(cf, trf) := fin in
  (match cf with Normal _ => c | Throw e => Throw e end, tr ++ trf).

Definition outcome {A : Type} (m : M A) : Completion A := m.1.
Definition trace {A : Type} (m : M A) : list Event := m.2.

End Eff.

(** [x ← m; k] and [m;; k] sequence computations of [Eff.M]. *)
#[global] Instance Eff_ret : MRet Eff.M := @Eff.ret.
#[global] Instance Eff_bind : MBind Eff.M := fun A B k m => Eff.bind m k.

(* ===================================================================== *)
(** ** [_sqlite.ts]: the runtime-agnostic SQLite adapter *)
(* ===================================================================== *)

Module Sqlite.
Import Js Eff.

(** A [SqliteDatabase]: the wrapper around one open connection. *)
Record SqliteDatabase : Type := {
  filePath : string;
  conn : Host.Database;
}.

(** [new mod.Database(filePath, { readonly: true })]: logged when it
    yields a connection. *)
Definition new_Database (rt : Runtime) (opened : Completion Host.Database)
    (filePath : string) : M Host.Database :=
  match opened with
  | Normal db => call (Opened rt filePath true) (Normal db)
  | Throw e => throw e
  end.

Definition openBunSqlite (h : Host.t) (filePath : string) : M SqliteDatabase :=
  db ← new_Database Bun (Host.bun_sqlite h filePath) filePath;
  call (Exec filePath "PRAGMA journal_mode = WAL") (Host.exec_pragma db);;
  mret {| filePath := filePath; conn := db |}.

Definition openNodeSqlite (h : Host.t) (filePath : string) : M SqliteDatabase :=
  db ← new_Database Node (Host.node_sqlite h filePath) filePath;
  call (Exec filePath "PRAGMA journal_mode = WAL") (Host.exec_pragma db);;
  mret {| filePath := filePath; conn := db |}.

(** Open a SQLite database in read-only mode. *)
Definition openSqlite (h : Host.t) (filePath : string) : M SqliteDatabase :=
  if Host.has_Bun h then openBunSqlite h filePath else openNodeSqlite h filePath.

(** [db.prepare(sql).all()], the rows being what [answer] reads off the
    connection. *)
Definition prepare_all {A : Type} (db : SqliteDatabase) (sql : string)
    (answer : Host.Database -> Completion A) : M A :=
  call (Query (filePath db) sql) (answer (conn db)).

(** [db.close()]. *)
Definition close (db : SqliteDatabase) : M unit :=
  call (Closed (filePath db)) (Normal tt).

End Sqlite.

(* ===================================================================== *)
(** ** [data-loader.ts] *)
(* ===================================================================== *)

(** Tokens stored in assistant message JSON data. *)
Module AssistantTokens.
Record Cache : Type := {
  read : Js.number;
  write : Js.number;
}.
Record t : Type := {
  input : Js.number;
  output : Js.number;
  reasoning : Js.number;
  total : option Js.number;
  cache : Cache;
}.
End AssistantTokens.

(** Assistant message data extracted from the [data] JSON column. *)
Module AssistantMessageData.
Record Time : Type := {
  created : Js.number;
  completed : option Js.number;
}.
Record t : Type := {
  role : string;
  modelID : string;
  providerID : string;
  time : Time;
  cost : Js.number;
  tokens : AssistantTokens.t;
}.
End AssistantMessageData.

(** A single usage data entry loaded from the OpenCode database. *)
Module LoadedUsageEntry.
Record Usage : Type := {
  inputTokens : Js.number;
  outputTokens : Js.number;
  cacheCreationInputTokens : Js.number;
  cacheReadInputTokens : Js.number;
}.
Record t : Type := {
  timestamp : Js.Date;
  sessionID : string;
  usage : Usage;
  model : string;
  costUSD : option Js.number;
}.
End LoadedUsageEntry.

Module LoadedSessionMetadata.
Record t : Type := {
  id : string;
  parentID : option string;
  title : string;
  projectID : string;
  directory : string;
}.
End LoadedSessionMetadata.

Module DataLoader.
Import Js Eff Valibot Sqlite.

(** Default OpenCode data directory path (~/.local/share/opencode). *)
Definition DEFAULT_OPENCODE_PATH : string := ".local/share/opencode".

(** OpenCode SQLite database filename. *)
Definition OPENCODE_DB_FILENAME : string := "opencode.db".

(** Environment variable for specifying custom OpenCode data directory. *)
Definition OPENCODE_CONFIG_DIR_ENV : string := "OPENCODE_DATA_DIR".

(** User home directory:
    [process.env.HOME ?? process.env.USERPROFILE ?? process.cwd()]. *)
Definition USER_HOME_DIR (h : Host.t) : string :=
  default (default (Host.cwd h) (Host.env h !! "USERPROFILE")) (Host.env h !! "HOME").

Definition assistantTokensCacheSchema : Schema AssistantTokens.Cache := fun j =>
  fields ← object_input j;
  read ← entry "read" v_number fields;
  write ← entry "write" v_number fields;
  Some {| AssistantTokens.read := read; AssistantTokens.write := write |}.

Definition assistantTokensSchema : Schema AssistantTokens.t := fun j =>
  fields ← object_input j;
  input ← entry "input" v_number fields;
  output ← entry "output" v_number fields;
  reasoning ← entry_optional_default "reasoning" v_number (JNum 0) fields;
  total ← entry_optional "total" v_number fields;
  cache ← entry "cache" assistantTokensCacheSchema fields;
  Some {| AssistantTokens.input := input;
          AssistantTokens.output := output;
          AssistantTokens.reasoning := reasoning;
          AssistantTokens.total := total;
          AssistantTokens.cache := cache |}.

Definition assistantMessageTimeSchema : Schema AssistantMessageData.Time := fun j =>
  fields ← object_input j;
  created ← entry "created" v_number fields;
  completed ← entry_optional "completed" v_number fields;
  Some {| AssistantMessageData.created := created;
          AssistantMessageData.completed := completed |}.

Definition assistantMessageDataSchema : Schema AssistantMessageData.t := fun j =>
  fields ← object_input j;
  role ← entry "role" (v_literal "assistant") fields;
  modelID ← entry "modelID" v_string fields;
  providerID ← entry "providerID" v_string fields;
  time ← entry "time" assistantMessageTimeSchema fields;
  cost ← entry "cost" v_number fields;
  tokens ← entry "tokens" assistantTokensSchema fields;
  Some {| AssistantMessageData.role := role;
          AssistantMessageData.modelID := modelID;
          AssistantMessageData.providerID := providerID;
          AssistantMessageData.time := time;
          AssistantMessageData.cost := cost;
          AssistantMessageData.tokens := tokens |}.

(** Get OpenCode data directory: the path, or [None] if not found. *)
Definition getOpenCodePath (h : Host.t) : option string :=
  let defaultPath := Host.path_join h (USER_HOME_DIR h) DEFAULT_OPENCODE_PATH in
  let use_default := if Host.isDirectorySync h defaultPath then Some defaultPath else None in
  match Host.env h !! OPENCODE_CONFIG_DIR_ENV with
  | Some envPath =>
      if bool_decide (trim envPath ≠ "") then
        let normalizedPath := Host.path_resolve h envPath in
        if Host.isDirectorySync h normalizedPath then Some normalizedPath
        else use_default
      else use_default
  | None => use_default
  end.

(** Get the path to the OpenCode SQLite database file, or [None] if not
    found. *)
Definition getOpenCodeDbPath (h : Host.t) : option string :=
  match getOpenCodePath h with
  | None => None
  | Some openCodePath =>
      let dbPath := Host.path_join h openCodePath OPENCODE_DB_FILENAME in
      if negb (Host.isFileSync h dbPath) then None else Some dbPath
  end.

(** Open the OpenCode database in read-only mode: the database, or [None]
    if the database file is not found. *)
Definition openDatabase (h : Host.t) : M (option SqliteDatabase) :=
  match getOpenCodeDbPath h with
  | None => mret None
  | Some dbPath => db ← openSqlite h dbPath; mret (Some db)
  end.

(** Convert a parsed assistant message row to LoadedUsageEntry. *)
Definition convertMessageToUsageEntry (row : MessageRow.t)
    (data : AssistantMessageData.t) : LoadedUsageEntry.t :=
  let tokens := AssistantMessageData.tokens data in
  {| LoadedUsageEntry.timestamp :=
       new_Date (AssistantMessageData.created (AssistantMessageData.time data));
     LoadedUsageEntry.sessionID := MessageRow.session_id row;
     LoadedUsageEntry.usage :=
       {| LoadedUsageEntry.inputTokens := AssistantTokens.input tokens;
          LoadedUsageEntry.outputTokens := AssistantTokens.output tokens;
          LoadedUsageEntry.cacheCreationInputTokens :=
            AssistantTokens.write (AssistantTokens.cache tokens);
          LoadedUsageEntry.cacheReadInputTokens :=
            AssistantTokens.read (AssistantTokens.cache tokens) |};
     LoadedUsageEntry.model := AssistantMessageData.modelID data;
     LoadedUsageEntry.costUSD :=
       if gt0 (AssistantMessageData.cost data)
       then Some (AssistantMessageData.cost data) else None |}.

Definition SESSION_QUERY : string :=
  "SELECT id, parent_id, title, project_id, directory FROM session".

Definition MESSAGE_QUERY : string :=
  "SELECT id, session_id, time_created, data FROM message
			 WHERE json_extract(data, '$.role') = 'assistant'".

(** The metadata [loadOpenCodeSessions] stores for one row. *)
Definition sessionMetadata (row : SessionRow.t) : LoadedSessionMetadata.t :=
  {| LoadedSessionMetadata.id := SessionRow.id row;
     LoadedSessionMetadata.parentID := SessionRow.parent_id row;
     LoadedSessionMetadata.title :=
       if bool_decide (SessionRow.title row ≠ "")
       then SessionRow.title row else SessionRow.id row;
     LoadedSessionMetadata.projectID := SessionRow.project_id row;
     LoadedSessionMetadata.directory := SessionRow.directory row |}.

(** The [for (const row of rows)] loop of [loadOpenCodeSessions], from
    the map built so far. *)
Definition sessionRows (rows : list SessionRow.t)
    (sessionMap : gmap string LoadedSessionMetadata.t) :
    gmap string LoadedSessionMetadata.t :=
  foldl (fun m row => <[SessionRow.id row := sessionMetadata row]> m) sessionMap rows.

(** Load all OpenCode session metadata from the database: a map of
    session ID to metadata. *)
Definition loadOpenCodeSessions (h : Host.t) : M (gmap string LoadedSessionMetadata.t) :=
  db ← openDatabase h;
  match db with
  | None => mret ∅
  | Some db =>
      try_finally
        (rows ← prepare_all db SESSION_QUERY Host.select_session;
         mret (sessionRows rows ∅))
        (close db)
  end.

(** Skip messages with zero tokens:
    [data.tokens.input === 0 && data.tokens.output === 0]. *)
Definition zero_tokens (data : AssistantMessageData.t) : bool :=
  is0 (AssistantTokens.input (AssistantMessageData.tokens data))
  && is0 (AssistantTokens.output (AssistantMessageData.tokens data)).

(** The [for (const row of rows)] loop of [loadOpenCodeMessages], from
    the entries pushed so far.  [JSON.parse] may throw, which ends the
    loop. *)
Fixpoint messageRows (h : Host.t) (rows : list MessageRow.t)
    (entries : list LoadedUsageEntry.t) : Completion (list LoadedUsageEntry.t) :=
  match rows with
  | [] => Normal entries
  | row :: rest =>
      match Host.JSON_parse h (MessageRow.data row) with
      | Throw e => Throw e
      | Normal j =>
          match safeParse assistantMessageDataSchema j with
          | None => messageRows h rest entries
          | Some data =>
              if zero_tokens data then messageRows h rest entries
              else messageRows h rest (entries ++ [convertMessageToUsageEntry row data])
          end
      end
  end.

(** Load all OpenCode assistant messages with token usage from the
    database. *)
Definition loadOpenCodeMessages (h : Host.t) : M (list LoadedUsageEntry.t) :=
  db ← openDatabase h;
  match db with
  | None => mret []
  | Some db =>
      try_finally
        (rows ← prepare_all db MESSAGE_QUERY Host.select_message;
         lift (messageRows h rows []))
        (close db)
  end.

End DataLoader.

(* ===================================================================== *)
(** ** The pricing fetcher and its model aliases *)
(* ===================================================================== *)

Module Pricing.
Import Js.

(** [Result.Result<T, Error>] of [@praha/byethrow]. *)
Inductive Result (A : Type) : Type :=
| Success (value : A)
| Failure (error : Error).
Arguments Success {A} value.
Arguments Failure {A} error.

Definition isFailure {A : Type} (r : Result A) : bool :=
  match r with
  | Failure _ => true
  | Success _ => false
  end.

Definition CLAUDE_PROVIDER_PREFIXES : list string :=
  ["anthropic/"; "claude-3-5-"; "claude-3-"; "claude-"; "openrouter/openai/"].

(** Model aliases for Claude Code model names that don't exist in
    LiteLLM. *)
Definition CLAUDE_MODEL_ALIASES : gmap string string :=
  Map_of_entries
    [ ("anthropic/claude-opus-4.6", "claude-opus-4-6");
      ("anthropic/claude-haiku-4.5", "claude-haiku-4-5");
      ("anthropic/claude-sonnet-4.5", "claude-sonnet-4-5-20250929");
      ("anthropic/claude-sonnet-4.6", "claude-sonnet-4-6") ].

(** What one resolution does besides computing its result, in order. *)
Inductive Step : Type :=
| SuperGetModelPricing (modelName : string)
| AliasesGet (modelName : string)
| LoggerDebug (modelName alias : string).

Section PricingFetcher.

(** [LiteLLMModelPricing], and [getModelPricing] of the class
    [LiteLLMPricingFetcher] that [PricingFetcher] extends: both belong to
    the package [@ccusage/internal/pricing] and are taken as given. *)
Context {LiteLLMModelPricing : Type}.
Variable super_getModelPricing : string -> Result (option LiteLLMModelPricing).

(** Resolve model name using aliases if direct lookup fails. *)
Definition getModelPricing (modelName : string) :
    Result (option LiteLLMModelPricing) * list Step :=
  let directResult := super_getModelPricing modelName in
  let direct := [SuperGetModelPricing modelName] in
  if isFailure directResult then (directResult, direct)
  else
    match directResult with
    | Success (Some _) => (directResult, direct)
    | _ =>
        match CLAUDE_MODEL_ALIASES !! modelName with
        | Some alias =>
            (super_getModelPricing alias,
             direct ++ [AliasesGet modelName; LoggerDebug modelName alias;
                        SuperGetModelPricing alias])
        | None => (directResult, direct ++ [AliasesGet modelName])
        end
    end.

End PricingFetcher.

(** Modelled from the spec: the exact-match lookup of the pricing catalog
    ([getModelPricing] of [LiteLLMPricingFetcher], missing here).  The
    catalog is acquired once per run, from the network or from the
    embedded snapshot; a failed acquisition is a failure of every lookup,
    and a lookup in an acquired catalog is an exact match or "no
    pricing". *)
Definition catalog_getModelPricing {LiteLLMModelPricing : Type}
    (acquired : Result (gmap string LiteLLMModelPricing)) (modelName : string) :
    Result (option LiteLLMModelPricing) :=
  match acquired with
  | Failure e => Failure e
  | Success catalog => Success (catalog !! modelName)
  end.

End Pricing.

(* ===================================================================== *)
(** ** Vocabulary of the statements *)
(* ===================================================================== *)

Module Obs.
Import Js Eff Valibot Sqlite DataLoader.

(** The database [openDatabase] hands to a loader, when it hands one. *)
Definition opened (h : Host.t) : option SqliteDatabase :=
  match outcome (openDatabase h) with
  | Normal (Some db) => Some db
  | _ => None
  end.

(** The rows the message query returns on the opened database. *)
Definition queried_messages (h : Host.t) : option (list MessageRow.t) :=
  db ← opened h;
  match Host.select_message (conn db) with
  | Normal rows => Some rows
  | Throw _ => None
  end.

(** The rows the session query returns on the opened database. *)
Definition queried_sessions (h : Host.t) : option (list SessionRow.t) :=
  db ← opened h;
  match Host.select_session (conn db) with
  | Normal rows => Some rows
  | Throw _ => None
  end.

(** The [data] column of [row] is text [JSON.parse] reads. *)
Definition parses (h : Host.t) (row : MessageRow.t) : Prop :=
  ∃ j, Host.JSON_parse h (MessageRow.data row) = Normal j.

(** The payload of [row] once it has passed [assistantMessageDataSchema]. *)
Definition assistant_data (h : Host.t) (row : MessageRow.t) :
    option AssistantMessageData.t :=
  match Host.JSON_parse h (MessageRow.data row) with
  | Normal j => safeParse assistantMessageDataSchema j
  | Throw _ => None
  end.

(** The entry a row contributes: none for a payload that fails the schema
    or carries neither input nor output tokens. *)
Definition usage_entry (h : Host.t) (row : MessageRow.t) : option LoadedUsageEntry.t :=
  data ← assistant_data h row;
  if zero_tokens data then None else Some (convertMessageToUsageEntry row data).

(** The [role] member of a parsed payload. *)
Definition payload_role (j : json) : option json :=
  fields ← object_input j; fields !! "role".

(** [costUSD] is [null] or strictly greater than zero. *)
Definition cost_null_or_positive (e : LoadedUsageEntry.t) : Prop :=
  match LoadedUsageEntry.costUSD e with
  | None => True
  | Some c => gt0 c = true ∧ is0 c = false ∧ le0 c = false
  end.

(** The override variable is unset, or names no existing directory. *)
Definition override_unusable (h : Host.t) : Prop :=
  match Host.env h !! OPENCODE_CONFIG_DIR_ENV with
  | None => True
  | Some envPath => Host.isDirectorySync h (Host.path_resolve h envPath) = false
  end.

(** The default data directory, under the user's home directory. *)
Definition defaultPath (h : Host.t) : string :=
  Host.path_join h (USER_HOME_DIR h) DEFAULT_OPENCODE_PATH.

(** The data source is missing: no data directory, or no database file
    in the data directory. *)
Definition source_absent (h : Host.t) : Prop :=
  match getOpenCodePath h with
  | None => True
  | Some dir => Host.isFileSync h (Host.path_join h dir OPENCODE_DB_FILENAME) = false
  end.

(** The SQLite module [openSqlite] picks: [bun:sqlite] under Bun,
    [node:sqlite] otherwise. *)
Definition runtime (h : Host.t) : Runtime :=
  if Host.has_Bun h then Bun else Node.

(** The calls of a run of [openSqlite] that returns a database: the file
    is opened read-only, then the pragma is executed. *)
Definition opening (rt : Runtime) (path : string) : list Event :=
  [Opened rt path true; Exec path "PRAGMA journal_mode = WAL"].

(** Every character of [s] is white space: what [s.trim()] empties. *)
Definition blank (s : string) : bool := forallb is_white_space (chars s).

(** [new Database(...)] of the SQLite module [openSqlite] picks. *)
Definition construct (h : Host.t) (path : string) : Completion Host.Database :=
  if Host.has_Bun h then Host.bun_sqlite h path else Host.node_sqlite h path.

(** The calls of a loader that got a database and ran [sql] on it. *)
Definition scoped_query (h : Host.t) (path sql : string) : list Event :=
  opening (runtime h) path ++ [Query path sql; Closed path].

(** The keys [assistantMessageDataSchema] reads from a payload. *)
Definition payload_keys : list string :=
  ["role"; "modelID"; "providerID"; "time"; "cost"; "tokens"].

(** No number of the entry is NaN. *)
Definition no_NaN (e : LoadedUsageEntry.t) : Prop :=
  let u := LoadedUsageEntry.usage e in
  PrimFloat.is_nan (LoadedUsageEntry.inputTokens u) = false
  ∧ PrimFloat.is_nan (LoadedUsageEntry.outputTokens u) = false
  ∧ PrimFloat.is_nan (LoadedUsageEntry.cacheCreationInputTokens u) = false
  ∧ PrimFloat.is_nan (LoadedUsageEntry.cacheReadInputTokens u) = false
  ∧ (∀ c, LoadedUsageEntry.costUSD e = Some c → PrimFloat.is_nan c = false).

(** The calls [tr] open nothing, or open the database file read-only
    first and touch that file only. *)
Definition opens_only (h : Host.t) (tr : list Event) : Prop :=
  tr = []
  ∨ ∃ path rest,
      getOpenCodeDbPath h = Some path
      ∧ tr = Opened (runtime h) path true :: rest
      ∧ Forall (λ ev, ∃ sql, ev = Exec path sql ∨ ev = Query path sql ∨ ev = Closed path)
               rest.

(** The member of [j] reached by reading the keys of [path] in turn, as
    [j.tokens.cache.read] reads three: [None] where a key is missing or
    the value read from is no object. *)
Fixpoint json_at (path : list string) (j : json) : option json :=
  match path with
  | [] => Some j
  | key :: rest =>
      match j with
      | JObj fields => fields !! key ≫= json_at rest
      | _ => None
      end
  end.

(** The names a resolution looked up, in order. *)
Definition lookups (steps : list Pricing.Step) : list string :=
  omap (λ step, match step with
                | Pricing.SuperGetModelPricing name => Some name
                | _ => None
                end) steps.

End Obs.

(** Unfolds the sequencing of [Eff.M]. *)
Ltac eff_unfold :=
  unfold mbind, mret, Eff_bind, Eff_ret, Eff.bind, Eff.ret, Eff.call, Eff.throw,
    Eff.lift, Eff.try_finally, Eff.outcome, Eff.trace in *.

(* ===================================================================== *)
(** ** Concrete hosts and payloads *)
(* ===================================================================== *)

Module Examples.
Import Js Eff Sqlite DataLoader.

(** The assistant payload of the module's own conversion test. *)
Definition sonnet_payload : json :=
  JObj (Map_of_entries
    [ ("role", JStr "assistant");
      ("modelID", JStr "anthropic/claude-sonnet-4-5");
      ("providerID", JStr "anthropic");
      ("time", JObj (Map_of_entries
         [ ("created", JNum 1700000000000); ("completed", JNum 1700000010000) ]));
      ("cost", JNum 0.05);
      ("tokens", JObj (Map_of_entries
         [ ("input", JNum 100); ("output", JNum 200); ("reasoning", JNum 0);
           ("cache", JObj (Map_of_entries [ ("read", JNum 50); ("write", JNum 25) ])) ])) ]).

(** The zero-cost payload of the second conversion test; it has neither
    [reasoning] nor [completed]. *)
Definition gpt_payload : json :=
  JObj (Map_of_entries
    [ ("role", JStr "assistant");
      ("modelID", JStr "openai/gpt-5.1");
      ("providerID", JStr "openai");
      ("time", JObj (Map_of_entries [ ("created", JNum 1700000000000) ]));
      ("cost", JNum 0);
      ("tokens", JObj (Map_of_entries
         [ ("input", JNum 50); ("output", JNum 100);
           ("cache", JObj (Map_of_entries [ ("read", JNum 0); ("write", JNum 0) ])) ])) ]).

(** An assistant turn that used no input and no output tokens. *)
Definition idle_payload : json :=
  JObj (Map_of_entries
    [ ("role", JStr "assistant");
      ("modelID", JStr "anthropic/claude-opus-4.6");
      ("providerID", JStr "zenmux");
      ("time", JObj (Map_of_entries [ ("created", JNum 1770806241551) ]));
      ("cost", JNum 0);
      ("tokens", JObj (Map_of_entries
         [ ("input", JNum 0); ("output", JNum 0);
           ("cache", JObj (Map_of_entries [ ("read", JNum 90579); ("write", JNum 0) ])) ])) ]).

(** The user message of the schema test. *)
Definition user_payload : json :=
  JObj (Map_of_entries
    [ ("role", JStr "user");
      ("time", JObj (Map_of_entries [ ("created", JNum 1770806197123) ])) ]).

(** [JSON.parse] on the texts the example rows hold.  A text is written
    as the name of the value it stands for; any other text is no JSON. *)
Definition parse_text (text : string) : Completion json :=
  if decide (text = "sonnet") then Normal sonnet_payload
  else if decide (text = "gpt") then Normal gpt_payload
  else if decide (text = "idle") then Normal idle_payload
  else if decide (text = "user") then Normal user_payload
  else Throw (SyntaxError text).

Definition message (id session text : string) : MessageRow.t :=
  {| MessageRow.id := id; MessageRow.session_id := session;
     MessageRow.time_created := 1700000000000; MessageRow.data := text |}.

Definition row_sonnet : MessageRow.t := message "msg_123" "ses_456" "sonnet".
Definition row_gpt : MessageRow.t := message "msg_789" "ses_012" "gpt".
Definition row_idle : MessageRow.t := message "msg_790" "ses_012" "idle".
Definition row_user : MessageRow.t := message "msg_791" "ses_012" "user".
Definition row_torn : MessageRow.t := message "msg_792" "ses_012" "{'role':".

Definition session (id title : string) : SessionRow.t :=
  {| SessionRow.id := id; SessionRow.parent_id := None; SessionRow.title := title;
     SessionRow.project_id := "prj_1"; SessionRow.directory := "/work" |}.

Definition session_rows : list SessionRow.t :=
  [ session "ses_456" "Refactor loader"; session "ses_012" "" ].

Definition database (rows : list MessageRow.t) : Host.Database :=
  {| Host.exec_pragma := Normal tt;
     Host.select_session := Normal session_rows;
     Host.select_message := Normal rows |}.

(** A host whose home is [/home/u], with the given override variable,
    directories, files and database content. *)
Definition host (override : option string) (dirs files : list string)
    (db : Host.Database) : Host.t :=
  {| Host.env :=
       match override with
       | Some p => <[OPENCODE_CONFIG_DIR_ENV := p]> {[ "HOME" := "/home/u" ]}
       | None => {[ "HOME" := "/home/u" ]}
       end;
     Host.cwd := "/work";
     Host.path_resolve := fun p => p;
     Host.path_join := fun a b => a +:+ "/" +:+ b;
     Host.isDirectorySync := fun p => bool_decide (p ∈ dirs);
     Host.isFileSync := fun p => bool_decide (p ∈ files);
     Host.has_Bun := false;
     Host.bun_sqlite := fun _ => Normal db;
     Host.node_sqlite := fun _ => Normal db;
     Host.JSON_parse := parse_text |}.

(** No override; the default directory holds a database with four rows. *)
Definition host_default : Host.t :=
  host None ["/home/u/.local/share/opencode"]
       ["/home/u/.local/share/opencode/opencode.db"]
       (database [row_sonnet; row_user; row_gpt; row_idle]).

(** The same database, with one row whose text is torn. *)
Definition host_torn : Host.t :=
  host None ["/home/u/.local/share/opencode"]
       ["/home/u/.local/share/opencode/opencode.db"]
       (database [row_sonnet; row_torn; row_gpt]).

(** The override names a directory that is missing, and so is the
    default directory. *)
Definition host_nowhere : Host.t :=
  host (Some "/data/opencode") [] [] (database []).

(** A data directory without a database file. *)
Definition host_no_db : Host.t :=
  host (Some "/data/opencode") ["/data/opencode"] [] (database []).

(** A catalog that has the canonical names only. *)
Definition catalog : gmap string Js.number :=
  Map_of_entries [ ("claude-opus-4-6", 0.000005%float); ("claude-sonnet-4-6", 0.000003%float) ].

Definition offline : string -> Pricing.Result (option Js.number) :=
  Pricing.catalog_getModelPricing (Pricing.Success catalog).

Definition unreachable : string -> Pricing.Result (option Js.number) :=
  Pricing.catalog_getModelPricing (LiteLLMModelPricing := Js.number)
    (Pricing.Failure (OtherError "fetch failed")).

(** The override names a directory that exists, with a database; the
    default directory exists too. *)
Definition host_override : Host.t :=
  host (Some "/data/opencode") ["/data/opencode"; "/home/u/.local/share/opencode"]
       ["/data/opencode/opencode.db"; "/home/u/.local/share/opencode/opencode.db"]
       (database [row_gpt]).

(** The override is set to white space. *)
Definition host_blank : Host.t :=
  host (Some "  ") ["/home/u/.local/share/opencode"; "  "]
       ["/home/u/.local/share/opencode/opencode.db"]
       (database [row_sonnet]).

(** A database file the SQLite module refuses to open. *)
Definition host_corrupt : Host.t :=
  {| Host.env := {[ "HOME" := "/home/u" ]};
     Host.cwd := "/work";
     Host.path_resolve := fun p => p;
     Host.path_join := fun a b => a +:+ "/" +:+ b;
     Host.isDirectorySync := fun p => bool_decide (p = "/home/u/.local/share/opencode");
     Host.isFileSync := fun p => bool_decide (p = "/home/u/.local/share/opencode/opencode.db");
     Host.has_Bun := true;
     Host.bun_sqlite := fun _ => Throw (SqliteError "file is not a database");
     Host.node_sqlite := fun _ => Normal (database []);
     Host.JSON_parse := parse_text |}.

(** A database on which the pragma fails. *)
Definition host_no_wal : Host.t :=
  host None ["/home/u/.local/share/opencode"]
       ["/home/u/.local/share/opencode/opencode.db"]
       {| Host.exec_pragma := Throw (SqliteError "attempt to write a readonly database");
          Host.select_session := Normal session_rows;
          Host.select_message := Normal [row_sonnet] |}.

(** A database without the tables the loaders query. *)
Definition host_no_tables : Host.t :=
  host None ["/home/u/.local/share/opencode"]
       ["/home/u/.local/share/opencode/opencode.db"]
       {| Host.exec_pragma := Normal tt;
          Host.select_session := Throw (SqliteError "no such table: session");
          Host.select_message := Throw (SqliteError "no such table: message") |}.

(** Two rows of the session table with one id. *)
Definition host_renamed : Host.t :=
  host None ["/home/u/.local/share/opencode"]
       ["/home/u/.local/share/opencode/opencode.db"]
       {| Host.exec_pragma := Normal tt;
          Host.select_session :=
            Normal [session "ses_1" "Draft"; session "ses_2" ""; session "ses_1" "Final"];
          Host.select_message := Normal [] |}.

(** What the schema returns for [gpt_payload]. *)
Definition gpt_data : AssistantMessageData.t :=
  {| AssistantMessageData.role := "assistant";
     AssistantMessageData.modelID := "openai/gpt-5.1";
     AssistantMessageData.providerID := "openai";
     AssistantMessageData.time :=
       {| AssistantMessageData.created := 1700000000000;
          AssistantMessageData.completed := None |};
     AssistantMessageData.cost := 0;
     AssistantMessageData.tokens :=
       {| AssistantTokens.input := 50; AssistantTokens.output := 100;
          AssistantTokens.reasoning := 0; AssistantTokens.total := None;
          AssistantTokens.cache :=
            {| AssistantTokens.read := 0; AssistantTokens.write := 0 |} |} |}.

(** A row whose text is JSON5: SQLite's [json_extract] reads it, and
    finds the role it is asked for, but [JSON.parse] refuses it. *)
Definition row_json5 : MessageRow.t :=
  message "msg_793" "ses_012" "{role:'assistant',cost:0.05}".

(** An assistant message without [cost] and [tokens]: it passes the
    filter of the message query and fails the schema. *)
Definition partial_payload : json :=
  JObj (Map_of_entries
    [ ("role", JStr "assistant");
      ("modelID", JStr "anthropic/claude-sonnet-4-5");
      ("providerID", JStr "anthropic");
      ("time", JObj (Map_of_entries [ ("created", JNum 1770806241551) ])) ]).

Definition row_partial : MessageRow.t := message "msg_794" "ses_012" "partial".

(** A valid row, a row that fails the schema, and the JSON5 row. *)
Definition host_json5 : Host.t :=
  {| Host.env := {[ "HOME" := "/home/u" ]};
     Host.cwd := "/work";
     Host.path_resolve := fun p => p;
     Host.path_join := fun a b => a +:+ "/" +:+ b;
     Host.isDirectorySync := fun p => bool_decide (p = "/home/u/.local/share/opencode");
     Host.isFileSync := fun p => bool_decide (p = "/home/u/.local/share/opencode/opencode.db");
     Host.has_Bun := false;
     Host.bun_sqlite := fun _ => Normal (database [row_sonnet; row_partial; row_json5]);
     Host.node_sqlite := fun _ => Normal (database [row_sonnet; row_partial; row_json5]);
     Host.JSON_parse := fun text =>
       if decide (text = "partial") then Normal partial_payload else parse_text text |}.

(** The override is U+00A0 followed by a space; a directory of that name
    exists. *)
Definition host_nbsp : Host.t :=
  host (Some (bytes [194; 160; 32]))
       ["/home/u/.local/share/opencode"; bytes [194; 160; 32]]
       ["/home/u/.local/share/opencode/opencode.db"]
       (database [row_sonnet]).

End Examples.

(* ===================================================================== *)
(** ** The examples, run *)
(* ===================================================================== *)

Section Runs.
Import Js Eff Sqlite DataLoader Obs Examples.

(** The module's own tests. *)
Example test_convert_assistant_data :
  convertMessageToUsageEntry
    (message "msg_123" "ses_456" "")
    {| AssistantMessageData.role := "assistant";
       AssistantMessageData.modelID := "anthropic/claude-sonnet-4-5";
       AssistantMessageData.providerID := "anthropic";
       AssistantMessageData.time :=
         {| AssistantMessageData.created := 1700000000000;
            AssistantMessageData.completed := Some 1700000010000%float |};
       AssistantMessageData.cost := 0.05;
       AssistantMessageData.tokens :=
         {| AssistantTokens.input := 100; AssistantTokens.output := 200;
            AssistantTokens.reasoning := 0; AssistantTokens.total := None;
            AssistantTokens.cache :=
              {| AssistantTokens.read := 50; AssistantTokens.write := 25 |} |} |}
  = {| LoadedUsageEntry.timestamp := new_Date 1700000000000;
       LoadedUsageEntry.sessionID := "ses_456";
       LoadedUsageEntry.usage :=
         {| LoadedUsageEntry.inputTokens := 100;
            LoadedUsageEntry.outputTokens := 200;
            LoadedUsageEntry.cacheCreationInputTokens := 25;
            LoadedUsageEntry.cacheReadInputTokens := 50 |};
       LoadedUsageEntry.model := "anthropic/claude-sonnet-4-5";
       LoadedUsageEntry.costUSD := Some 0.05%float |}.
Proof. vm_compute. reflexivity. Qed.

Example test_cost_zero_is_null :
  LoadedUsageEntry.costUSD <$> usage_entry host_default row_gpt = Some None.
Proof. vm_compute. reflexivity. Qed.

Example test_schema_accepts_assistant :
  is_Some (Valibot.safeParse assistantMessageDataSchema sonnet_payload).
Proof. vm_compute. eauto. Qed.

Example test_schema_rejects_user :
  Valibot.safeParse assistantMessageDataSchema user_payload = None.
Proof. vm_compute. reflexivity. Qed.

Example test_trim :
  trim "  /data/opencode " = "/data/opencode" ∧ trim "   " = "".
Proof. split; vm_compute; reflexivity. Qed.

Example test_trim_unicode :
  trim (bytes [194; 160; 32] +:+ "/data/open code" +:+ bytes [226; 128; 169; 239; 187; 191])
  = "/data/open code"
  ∧ trim (bytes [194; 160; 227; 128; 128; 9]) = ""
  ∧ trim (bytes [195; 160]) = bytes [195; 160].
Proof. repeat split; vm_compute; reflexivity. Qed.

Example run_default :
  loadOpenCodeMessages host_default
  = (Normal [convertMessageToUsageEntry row_sonnet
               {| AssistantMessageData.role := "assistant";
                  AssistantMessageData.modelID := "anthropic/claude-sonnet-4-5";
                  AssistantMessageData.providerID := "anthropic";
                  AssistantMessageData.time :=
                    {| AssistantMessageData.created := 1700000000000;
                       AssistantMessageData.completed := Some 1700000010000%float |};
                  AssistantMessageData.cost := 0.05;
                  AssistantMessageData.tokens :=
                    {| AssistantTokens.input := 100; AssistantTokens.output := 200;
                       AssistantTokens.reasoning := 0; AssistantTokens.total := None;
                       AssistantTokens.cache :=
                         {| AssistantTokens.read := 50; AssistantTokens.write := 25 |} |} |};
             convertMessageToUsageEntry row_gpt
               {| AssistantMessageData.role := "assistant";
                  AssistantMessageData.modelID := "openai/gpt-5.1";
                  AssistantMessageData.providerID := "openai";
                  AssistantMessageData.time :=
                    {| AssistantMessageData.created := 1700000000000;
                       AssistantMessageData.completed := None |};
                  AssistantMessageData.cost := 0;
                  AssistantMessageData.tokens :=
                    {| AssistantTokens.input := 50; AssistantTokens.output := 100;
                       AssistantTokens.reasoning := 0; AssistantTokens.total := None;
                       AssistantTokens.cache :=
                         {| AssistantTokens.read := 0; AssistantTokens.write := 0 |} |} |}],
     [Opened Node "/home/u/.local/share/opencode/opencode.db" true;
      Exec "/home/u/.local/share/opencode/opencode.db" "PRAGMA journal_mode = WAL";
      Query "/home/u/.local/share/opencode/opencode.db" MESSAGE_QUERY;
      Closed "/home/u/.local/share/opencode/opencode.db"]).
Proof. vm_compute. reflexivity. Qed.

Example run_default_costs :
  match outcome (loadOpenCodeMessages host_default) with
  | Normal entries => LoadedUsageEntry.costUSD <$> entries
  | Throw _ => []
  end = [Some 0.05%float; None].
Proof. vm_compute. reflexivity. Qed.

Example run_torn :
  loadOpenCodeMessages host_torn
  = (Throw (SyntaxError "{'role':"),
     [Opened Node "/home/u/.local/share/opencode/opencode.db" true;
      Exec "/home/u/.local/share/opencode/opencode.db" "PRAGMA journal_mode = WAL";
      Query "/home/u/.local/share/opencode/opencode.db" MESSAGE_QUERY;
      Closed "/home/u/.local/share/opencode/opencode.db"]).
Proof. vm_compute. reflexivity. Qed.

Example run_nowhere :
  loadOpenCodeMessages host_nowhere = (Normal [], [])
  ∧ loadOpenCodeSessions host_no_db = (Normal ∅, []).
Proof. split; vm_compute; reflexivity. Qed.

Example run_sessions :
  match outcome (loadOpenCodeSessions host_default) with
  | Normal sessionMap => LoadedSessionMetadata.title <$> sessionMap
  | Throw _ => ∅
  end = {[ "ses_456" := "Refactor loader"; "ses_012" := "ses_012" ]}.
Proof. vm_compute. reflexivity. Qed.

Example run_alias :
  Pricing.getModelPricing offline "anthropic/claude-opus-4.6"
  = (Pricing.Success (Some 0.000005%float),
     [Pricing.SuperGetModelPricing "anthropic/claude-opus-4.6";
      Pricing.AliasesGet "anthropic/claude-opus-4.6";
      Pricing.LoggerDebug "anthropic/claude-opus-4.6" "claude-opus-4-6";
      Pricing.SuperGetModelPricing "claude-opus-4-6"]).
Proof. vm_compute. reflexivity. Qed.

End Runs.

(* ===================================================================== *)
(** ** Comparisons with zero *)
(* ===================================================================== *)

Section Numbers.
Import Js.

(** The three comparisons, read on the IEEE 754 value of the number. *)
Lemma compare_zero_spec (c : number) :
  gt0 c = SFltb (S754_zero false) (Prim2SF c)
  ∧ le0 c = SFleb (Prim2SF c) (S754_zero false)
  ∧ is0 c = SFeqb (Prim2SF c) (S754_zero false).
Proof.
  unfold gt0, le0, is0.
  rewrite FloatAxioms.ltb_spec, FloatAxioms.leb_spec, FloatAxioms.eqb_spec.
  change (Prim2SF 0) with (S754_zero false).
  done.
Qed.

Lemma gt0_excludes (c : number) :
  gt0 c = true → is0 c = false ∧ le0 c = false.
Proof.
  destruct (compare_zero_spec c) as (-> & -> & ->).
  destruct (Prim2SF c) as [s | s | | s m e]; try destruct s; cbn; auto.
Qed.

Lemma le0_not_gt0 (c : number) : le0 c = true → gt0 c = false.
Proof.
  intros Hle. destruct (gt0 c) eqn:Hgt; [|done].
  apply gt0_excludes in Hgt as [_ Hgt]. congruence.
Qed.

Lemma is0_not_gt0 (c : number) : is0 c = true → gt0 c = false.
Proof.
  intros H0. destruct (gt0 c) eqn:Hgt; [|done].
  apply gt0_excludes in Hgt as [Hgt _]. congruence.
Qed.

(** A number that is not NaN is above zero, or at most zero. *)
Lemma not_gt0_le0 (c : number) :
  PrimFloat.is_nan c = false → gt0 c = false → le0 c = true.
Proof.
  unfold PrimFloat.is_nan. rewrite FloatAxioms.eqb_spec.
  destruct (compare_zero_spec c) as (-> & -> & _).
  destruct (Prim2SF c) as [s | s | | s m e]; try destruct s; cbn; try done.
  all: unfold SFeqb, SFcompare; rewrite ?Z.compare_refl, ?Pos.compare_refl; cbn; try done.
Qed.

End Numbers.

(* ===================================================================== *)
(** ** How a load runs *)
(* ===================================================================== *)

Section Runs_of_a_load.
Import Js Eff Valibot Sqlite DataLoader Obs.

Lemma openSqlite_returns (h : Host.t) (path : string) (db : SqliteDatabase)
    (tr : list Event) :
  openSqlite h path = (Normal db, tr) →
  filePath db = path ∧ tr = opening (runtime h) path.
Proof.
  unfold openSqlite, openBunSqlite, openNodeSqlite, new_Database, opening, runtime.
  destruct (Host.has_Bun h).
  - destruct (Host.bun_sqlite h path) as [c|e]; eff_unfold; [|done].
    destruct (Host.exec_pragma c); cbn; [|done].
    by intros [= <- <-].
  - destruct (Host.node_sqlite h path) as [c|e]; eff_unfold; [|done].
    destruct (Host.exec_pragma c); cbn; [|done].
    by intros [= <- <-].
Qed.

Lemma openDatabase_absent (h : Host.t) :
  getOpenCodeDbPath h = None → openDatabase h = (Normal None, []).
Proof. unfold openDatabase. by intros ->. Qed.

Lemma openDatabase_returns (h : Host.t) (db : SqliteDatabase) :
  opened h = Some db →
  getOpenCodeDbPath h = Some (filePath db)
  ∧ openDatabase h = (Normal (Some db), opening (runtime h) (filePath db)).
Proof.
  unfold opened, openDatabase.
  destruct (getOpenCodeDbPath h) as [path|]; [|done].
  destruct (openSqlite h path) as [[db'|e] tr] eqn:Hopen; eff_unfold; cbn; [|done].
  intros [= ->].
  destruct (openSqlite_returns _ _ _ _ Hopen) as [<- ->].
  split; [done|]. by rewrite app_nil_r.
Qed.

(** A loader that got a database runs one query on it and closes it. *)
Lemma loadOpenCodeMessages_opened (h : Host.t) (db : SqliteDatabase) :
  opened h = Some db →
  loadOpenCodeMessages h
  = (match Host.select_message (conn db) with
     | Normal rows => messageRows h rows []
     | Throw e => Throw e
     end,
     opening (runtime h) (filePath db)
       ++ [Query (filePath db) MESSAGE_QUERY; Closed (filePath db)]).
Proof.
  intros (_ & Hopen)%openDatabase_returns.
  unfold loadOpenCodeMessages, prepare_all, close. rewrite Hopen.
  eff_unfold. cbn.
  destruct (Host.select_message (conn db)) as [rows|e]; cbn; [|done].
  by destruct (messageRows h rows []).
Qed.

Lemma loadOpenCodeSessions_opened (h : Host.t) (db : SqliteDatabase) :
  opened h = Some db →
  loadOpenCodeSessions h
  = (match Host.select_session (conn db) with
     | Normal rows => Normal (sessionRows rows ∅)
     | Throw e => Throw e
     end,
     opening (runtime h) (filePath db)
       ++ [Query (filePath db) SESSION_QUERY; Closed (filePath db)]).
Proof.
  intros (_ & Hopen)%openDatabase_returns.
  unfold loadOpenCodeSessions, prepare_all, close. rewrite Hopen.
  eff_unfold. cbn.
  by destruct (Host.select_session (conn db)) as [rows|e].
Qed.

(** A loader that got no database makes no call and returns nothing. *)
Lemma loaders_absent (h : Host.t) :
  getOpenCodeDbPath h = None →
  loadOpenCodeMessages h = (Normal [], [])
  ∧ loadOpenCodeSessions h = (Normal ∅, []).
Proof.
  intros Habs%openDatabase_absent.
  unfold loadOpenCodeMessages, loadOpenCodeSessions. by rewrite Habs.
Qed.

(** How a message load ends, whatever the database does. *)
Lemma loadOpenCodeMessages_outcome (h : Host.t) :
  outcome (loadOpenCodeMessages h)
  = match outcome (openDatabase h) with
    | Normal None => Normal []
    | Normal (Some db) =>
        match Host.select_message (conn db) with
        | Normal rows => messageRows h rows []
        | Throw e => Throw e
        end
    | Throw e => Throw e
    end.
Proof.
  destruct (opened h) as [db|] eqn:Hdb.
  - rewrite (loadOpenCodeMessages_opened _ _ Hdb).
    apply openDatabase_returns in Hdb as (_ & ->). done.
  - unfold opened in Hdb. unfold loadOpenCodeMessages.
    destruct (openDatabase h) as [[[db|]|e] tr]; cbn in *; done.
Qed.

(** The message loop, row by row. *)
Lemma messageRows_parsed (h : Host.t) (rows : list MessageRow.t)
    (entries : list LoadedUsageEntry.t) :
  Forall (parses h) rows →
  messageRows h rows entries = Normal (entries ++ omap (usage_entry h) rows).
Proof.
  intros Hall. revert entries.
  induction Hall as [|row rest [j Hj] _ IH]; intros entries; cbn.
  - by rewrite app_nil_r.
  - unfold usage_entry, assistant_data. rewrite Hj. cbn.
    destruct (safeParse assistantMessageDataSchema j) as [data|]; cbn; [|done].
    destruct (zero_tokens data); [done|].
    by rewrite IH, <- app_assoc.
Qed.

Lemma messageRows_returns (h : Host.t) (rows : list MessageRow.t)
    (entries out : list LoadedUsageEntry.t) :
  messageRows h rows entries = Normal out →
  Forall (parses h) rows ∧ out = entries ++ omap (usage_entry h) rows.
Proof.
  revert entries. induction rows as [|row rest IH]; intros entries; cbn.
  - intros [= <-]. by rewrite app_nil_r.
  - unfold usage_entry, assistant_data, parses.
    destruct (Host.JSON_parse h (MessageRow.data row)) as [j|e] eqn:Hj; [|done].
    cbn. destruct (safeParse assistantMessageDataSchema j) as [data|]; cbn.
    + destruct (zero_tokens data).
      * intros [Hall ->]%IH. split; [constructor; eauto|done].
      * intros [Hall ->]%IH. split; [constructor; eauto|]. by rewrite <- app_assoc.
    + intros [Hall ->]%IH. split; [constructor; eauto|done].
Qed.

(** A row whose text [JSON.parse] refuses ends the loop by its throw. *)
Lemma messageRows_throws (h : Host.t) (pre post : list MessageRow.t)
    (row : MessageRow.t) (e : Error) (entries : list LoadedUsageEntry.t) :
  Forall (parses h) pre →
  Host.JSON_parse h (MessageRow.data row) = Throw e →
  messageRows h (pre ++ row :: post) entries = Throw e.
Proof.
  intros Hpre Hrow. revert entries.
  induction Hpre as [|r pre [j Hj] _ IH]; intros entries; cbn.
  - by rewrite Hrow.
  - rewrite Hj. destruct (safeParse assistantMessageDataSchema j) as [data|]; [|done].
    by destruct (zero_tokens data).
Qed.

(** Where an entry comes from. *)
Lemma usage_entry_Some (h : Host.t) (row : MessageRow.t) (e : LoadedUsageEntry.t) :
  usage_entry h row = Some e ↔
  ∃ data, assistant_data h row = Some data ∧ zero_tokens data = false
          ∧ e = convertMessageToUsageEntry row data.
Proof.
  unfold usage_entry. destruct (assistant_data h row) as [data|]; cbn.
  - destruct (zero_tokens data) eqn:Hz; split.
    + done.
    + intros (d & [= <-] & ? & _). congruence.
    + intros [= <-]. eauto.
    + intros (d & [= <-] & _ & ->). done.
  - split; [done|]. by intros (d & ? & _).
Qed.

End Runs_of_a_load.

(* ===================================================================== *)
(** ** The cost a record carries *)
(* ===================================================================== *)

Section Cost.
Import Js DataLoader Obs.

(** C1. Cost precedence in [convertMessageToUsageEntry], which the loader
    applies to every assistant message it loads: a source-supplied cost
    strictly greater than zero becomes the record's [costUSD] as it is; a
    cost of zero, or of less than zero, is treated as absent and gives
    [costUSD = null].  [costUSD] is [null] in no other case: for the cost
    of a payload that passed the schema, which is a number and not NaN,
    it is [null] exactly when the cost is at most zero. *)
Theorem cost_precedence (row : MessageRow.t) (data : AssistantMessageData.t) :
  let cost := AssistantMessageData.cost data in
  let costUSD := LoadedUsageEntry.costUSD (convertMessageToUsageEntry row data) in
  (gt0 cost = true → costUSD = Some cost)
  ∧ (is0 cost = true → costUSD = None)
  ∧ (le0 cost = true → costUSD = None)
  ∧ (costUSD = None ↔ gt0 cost = false)
  ∧ (PrimFloat.is_nan cost = false → (costUSD = None ↔ le0 cost = true))
  ∧ (∀ h e, assistant_data h row = Some data →
            usage_entry h row = Some e →
            LoadedUsageEntry.costUSD e = if gt0 cost then Some cost else None).
Proof.
  cbn -[gt0 is0 le0]. split; [|split; [|split; [|split; [|split]]]].
  - by intros ->.
  - by intros ->%is0_not_gt0.
  - by intros ->%le0_not_gt0.
  - by destruct (gt0 _).
  - intros Hnan. destruct (gt0 _) eqn:Hgt.
    + apply gt0_excludes in Hgt as [_ Hle]. by rewrite Hle.
    + by rewrite (not_gt0_le0 _ Hnan Hgt).
  - intros h e Hdata (data' & Hdata' & _ & ->)%usage_entry_Some.
    rewrite Hdata in Hdata'. by injection Hdata' as <-.
Qed.

End Cost.

(* ===================================================================== *)
(** ** A data source that is missing *)
(* ===================================================================== *)

Section Absent_source.
Import Js Eff Sqlite DataLoader Obs Examples.

Lemma source_absent_no_path (h : Host.t) :
  source_absent h ↔ getOpenCodeDbPath h = None.
Proof.
  unfold source_absent, getOpenCodeDbPath.
  destruct (getOpenCodePath h) as [dir|]; [|done].
  by destruct (Host.isFileSync h _).
Qed.

(** Without a usable override the data directory is the default one. *)
Lemma getOpenCodePath_default (h : Host.t) :
  override_unusable h →
  getOpenCodePath h
  = if Host.isDirectorySync h (defaultPath h) then Some (defaultPath h) else None.
Proof.
  unfold override_unusable, getOpenCodePath, defaultPath.
  destruct (Host.env h !! OPENCODE_CONFIG_DIR_ENV) as [envPath|]; [|done].
  intros ->. by case_bool_decide.
Qed.

(** C4. When the data source does not exist (there is no data directory,
    or the data directory holds no database file), loading produces an
    empty sequence of records, and an empty session map, without raising
    an exception and without any call on the SQLite module. *)
Theorem absent_source_loads_nothing (h : Host.t) :
  source_absent h →
  loadOpenCodeMessages h = (Normal [], [])
  ∧ loadOpenCodeSessions h = (Normal ∅, []).
Proof. intros Habs%source_absent_no_path. by apply loaders_absent. Qed.

Lemma absent_source_loads_nothing_witness :
  source_absent host_no_db
  ∧ loadOpenCodeMessages host_no_db = (Normal [], [])
  ∧ loadOpenCodeSessions host_no_db = (Normal ∅, []).
Proof.
  split; [vm_compute; reflexivity|].
  apply (absent_source_loads_nothing host_no_db). vm_compute. reflexivity.
Defined.

(** C3, as stated, fails: with the override variable unset the loader
    reads the default data directory, and returns what it finds there. *)
Lemma unset_override_still_loads :
  ¬ (∀ h : Host.t,
       override_unusable h → outcome (loadOpenCodeMessages h) = Normal []).
Proof.
  intros Hclaim.
  specialize (Hclaim host_default). 
  assert (override_unusable host_default) as Hunset by (vm_compute; reflexivity).
  apply Hclaim in Hunset. vm_compute in Hunset. discriminate Hunset.
Qed.

(** C3, amended. When the override variable is unset, or is set but names
    no existing directory, the loader falls back to the default data
    directory under the user's home directory; when that directory does
    not exist either, the loader behaves as if no data exists and returns
    an empty result rather than an error. *)
Theorem unusable_override_falls_back (h : Host.t) :
  override_unusable h →
  getOpenCodePath h
  = (if Host.isDirectorySync h (defaultPath h) then Some (defaultPath h) else None)
  ∧ (Host.isDirectorySync h (defaultPath h) = false →
     loadOpenCodeMessages h = (Normal [], [])
     ∧ loadOpenCodeSessions h = (Normal ∅, [])).
Proof.
  intros Hpath%getOpenCodePath_default. split; [done|].
  intros Hdir. rewrite Hdir in Hpath.
  apply loaders_absent. unfold getOpenCodeDbPath. by rewrite Hpath.
Qed.

Lemma unusable_override_falls_back_witness :
  override_unusable host_nowhere
  ∧ Host.isDirectorySync host_nowhere (defaultPath host_nowhere) = false
  ∧ getOpenCodePath host_nowhere = None
  ∧ loadOpenCodeMessages host_nowhere = (Normal [], [])
  ∧ loadOpenCodeSessions host_nowhere = (Normal ∅, []).
Proof.
  assert (override_unusable host_nowhere) as Hover by (vm_compute; reflexivity).
  assert (Host.isDirectorySync host_nowhere (defaultPath host_nowhere) = false)
    as Hdir by (vm_compute; reflexivity).
  destruct (unusable_override_falls_back host_nowhere Hover) as [Hpath Hload].
  rewrite Hdir in Hpath. auto.
Defined.

End Absent_source.

(* ===================================================================== *)
(** ** The lifetime of a database handle *)
(* ===================================================================== *)

Section Handle.
Import Js Eff Sqlite DataLoader Obs Examples.

(** X24. A loading operation that gets a database from [openDatabase]
    (the file was opened and the pragma executed on it) makes exactly
    four calls, whatever the query and the row processing
    do: it opens the file read-only, executes the pragma, runs its query,
    and closes the handle.  In particular, when the load ends by a throw,
    from the query or from [JSON.parse] on a row, the handle has been
    closed by then. *)
Theorem handle_read_only_and_closed (h : Host.t) (db : SqliteDatabase) :
  opened h = Some db →
  let path := filePath db in
  trace (loadOpenCodeMessages h)
  = [Opened (runtime h) path true; Exec path "PRAGMA journal_mode = WAL";
     Query path MESSAGE_QUERY; Closed path]
  ∧ trace (loadOpenCodeSessions h)
    = [Opened (runtime h) path true; Exec path "PRAGMA journal_mode = WAL";
       Query path SESSION_QUERY; Closed path]
  ∧ (∀ e, outcome (loadOpenCodeMessages h) = Throw e →
          last (trace (loadOpenCodeMessages h)) = Some (Closed path))
  ∧ (∀ e, outcome (loadOpenCodeSessions h) = Throw e →
          last (trace (loadOpenCodeSessions h)) = Some (Closed path)).
Proof.
  intros Hdb path.
  rewrite (loadOpenCodeMessages_opened _ _ Hdb), (loadOpenCodeSessions_opened _ _ Hdb).
  done.
Qed.

Lemma handle_read_only_and_closed_witness :
  (∃ e, outcome (loadOpenCodeMessages host_torn) = Throw e)
  ∧ trace (loadOpenCodeMessages host_torn)
    = [Opened Node "/home/u/.local/share/opencode/opencode.db" true;
       Exec "/home/u/.local/share/opencode/opencode.db" "PRAGMA journal_mode = WAL";
       Query "/home/u/.local/share/opencode/opencode.db" MESSAGE_QUERY;
       Closed "/home/u/.local/share/opencode/opencode.db"].
Proof.
  split; [eexists; vm_compute; reflexivity|].
  refine (proj1 (handle_read_only_and_closed host_torn
    {| filePath := "/home/u/.local/share/opencode/opencode.db";
       conn := database [row_sonnet; row_torn; row_gpt] |} _)).
  vm_compute. reflexivity.
Defined.

(** When the pragma that [openSqlite] executes throws, [openSqlite] throws
    with the connection it made left open: no loader gets a database. *)
Lemma openSqlite_pragma_throws (h : Host.t) (path : string)
    (c : Host.Database) (e : Error) :
  Host.bun_sqlite h path = Normal c →
  Host.node_sqlite h path = Normal c →
  Host.exec_pragma c = Throw e →
  openSqlite h path = (Throw e, opening (runtime h) path).
Proof.
  intros Hbun Hnode Hexec.
  unfold openSqlite, openBunSqlite, openNodeSqlite, new_Database, runtime.
  rewrite Hbun, Hnode. eff_unfold. rewrite Hexec.
  by destruct (Host.has_Bun h).
Qed.

End Handle.

(* ===================================================================== *)
(** ** Which rows become entries *)
(* ===================================================================== *)

Section Entries.
Import Js Eff Valibot Sqlite DataLoader Obs Examples.

Lemma queried_messages_outcome (h : Host.t) (rows : list MessageRow.t) :
  queried_messages h = Some rows →
  outcome (loadOpenCodeMessages h) = messageRows h rows [].
Proof.
  unfold queried_messages.
  destruct (opened h) as [db|] eqn:Hdb; [|done]. cbn.
  rewrite (loadOpenCodeMessages_opened _ _ Hdb).
  destruct (Host.select_message (conn db)); [|done].
  by intros [= ->].
Qed.

(** A payload that passes the schema is an assistant message. *)
Lemma schema_role (j : json) (data : AssistantMessageData.t) :
  safeParse assistantMessageDataSchema j = Some data →
  payload_role j = Some (JStr "assistant")
  ∧ AssistantMessageData.role data = "assistant".
Proof.
  unfold safeParse, assistantMessageDataSchema, payload_role, entry.
  destruct (object_input j) as [fields|]; [|done]. cbn.
  destruct (fields !! "role") as [r|]; [|done]. cbn.
  destruct r as [| | |s| |]; cbn; try done.
  case_decide as Hs; [|done]. subst s. cbn.
  intros Hdata. split; [done|].
  repeat match type of Hdata with
         | (?o ≫= _) = Some _ => destruct o; [cbn in Hdata|done]
         end.
  by injection Hdata as <-.
Qed.

(** A payload that passes the schema has a numeric [cost], which its
    output carries. *)
Lemma schema_cost (j : json) (data : AssistantMessageData.t) :
  safeParse assistantMessageDataSchema j = Some data →
  ∃ fields, object_input j = Some fields
    ∧ fields !! "cost" = Some (JNum (AssistantMessageData.cost data))
    ∧ PrimFloat.is_nan (AssistantMessageData.cost data) = false.
Proof.
  unfold safeParse, assistantMessageDataSchema, entry.
  destruct (object_input j) as [fields|]; [|done]. cbn.
  intros Hdata. exists fields. split; [done|].
  destruct (fields !! "role" ≫= _); [cbn in Hdata|done].
  destruct (fields !! "modelID" ≫= _); [cbn in Hdata|done].
  destruct (fields !! "providerID" ≫= _); [cbn in Hdata|done].
  destruct (fields !! "time" ≫= _); [cbn in Hdata|done].
  destruct (fields !! "cost") as [c|]; [|done]. cbn in Hdata.
  destruct c as [| |n| | |]; cbn in Hdata; try done.
  destruct (PrimFloat.is_nan n) eqn:Hnan; cbn in Hdata; [done|].
  destruct (fields !! "tokens" ≫= assistantTokensSchema); [|done].
  cbn in Hdata. by injection Hdata as <-.
Qed.

End Entries.

Section Skipping.
Import Js Eff Valibot Sqlite DataLoader Obs Examples.

(** The loop passes over a row whose payload fails the schema. *)
Lemma messageRows_skip (h : Host.t) (pre post : list MessageRow.t)
    (bad : MessageRow.t) (j : json) (entries : list LoadedUsageEntry.t) :
  Host.JSON_parse h (MessageRow.data bad) = Normal j →
  safeParse assistantMessageDataSchema j = None →
  messageRows h (pre ++ bad :: post) entries = messageRows h (pre ++ post) entries.
Proof.
  intros Hj Hbad. revert entries.
  induction pre as [|row pre IH]; intros entries; cbn.
  - by rewrite Hj, Hbad.
  - destruct (Host.JSON_parse h (MessageRow.data row)) as [j'|e]; [|done].
    destruct (safeParse assistantMessageDataSchema j') as [data|]; [|done].
    by destruct (zero_tokens data).
Qed.

(** A payload with no [role] of ["assistant"], or with no numeric [cost],
    fails the schema. *)
Lemma schema_rejects (j : json) :
  payload_role j ≠ Some (JStr "assistant")
  ∨ (∀ fields n, object_input j = Some fields → fields !! "cost" ≠ Some (JNum n)) →
  safeParse assistantMessageDataSchema j = None.
Proof.
  intros Hbad.
  destruct (safeParse assistantMessageDataSchema j) as [data|] eqn:Hdata; [|done].
  destruct Hbad as [Hrole|Hcost].
  - by apply schema_role in Hdata as [Hdata _].
  - apply schema_cost in Hdata as (fields & Hobj & Hc & _).
    by destruct (Hcost _ _ Hobj Hc).
Qed.

(** X23. A row whose JSON payload fails schema validation is skipped:
    the load ends as it would on the same rows without that row.  When the text of every other row is JSON, the load
    returns, and every other row that passes the schema and carries input
    or output tokens is converted and returned, in the order of the
    rows. *)
Theorem invalid_row_skipped (h : Host.t) (pre post : list MessageRow.t)
    (bad : MessageRow.t) (j : json) :
  queried_messages h = Some (pre ++ bad :: post) →
  Host.JSON_parse h (MessageRow.data bad) = Normal j →
  safeParse assistantMessageDataSchema j = None →
  outcome (loadOpenCodeMessages h) = messageRows h (pre ++ post) []
  ∧ (Forall (parses h) (pre ++ post) →
     outcome (loadOpenCodeMessages h) = Normal (omap (usage_entry h) (pre ++ post))
     ∧ ∀ row data,
         row ∈ pre ++ post →
         assistant_data h row = Some data →
         zero_tokens data = false →
         ∃ entries, outcome (loadOpenCodeMessages h) = Normal entries
                    ∧ convertMessageToUsageEntry row data ∈ entries).
Proof.
  intros Hrows Hj Hbad.
  rewrite (queried_messages_outcome _ _ Hrows), (messageRows_skip _ _ _ _ _ _ Hj Hbad).
  split; [done|]. intros Hall.
  rewrite (messageRows_parsed _ _ _ Hall). cbn. split; [done|].
  intros row data Hrow Hdata Hz. eexists. split; [done|].
  apply list_elem_of_omap. exists row. split; [done|].
  apply usage_entry_Some. eauto.
Qed.

Lemma invalid_row_skipped_witness :
  outcome (loadOpenCodeMessages host_default)
  = messageRows host_default [row_sonnet; row_gpt; row_idle] []
  ∧ outcome (loadOpenCodeMessages host_default)
    = Normal (omap (usage_entry host_default) [row_sonnet; row_gpt; row_idle])
  ∧ length (omap (usage_entry host_default) [row_sonnet; row_gpt; row_idle]) = 2.
Proof.
  destruct (invalid_row_skipped host_default [row_sonnet] [row_gpt; row_idle]
              row_user user_payload) as [Hskip Hrest].
  - vm_compute. reflexivity.
  - vm_compute. reflexivity.
  - vm_compute. reflexivity.
  - split; [exact Hskip|]. split; [|vm_compute; reflexivity].
    apply Hrest. repeat constructor; eexists; vm_compute; reflexivity.
Defined.

(** C6. The message loader returns entries of assistant messages only:
    every returned entry is the conversion of a row whose payload passes
    the schema, and such a payload has role ["assistant"].  Among these it
    leaves out every entry whose input token count and output token count
    are both zero, and it returns all the others, in the order of the
    rows. *)
Theorem only_billable_assistant_entries (h : Host.t) (rows : list MessageRow.t) :
  queried_messages h = Some rows →
  Forall (parses h) rows →
  ∃ entries,
    outcome (loadOpenCodeMessages h) = Normal entries
    ∧ entries = omap (usage_entry h) rows
    ∧ (∀ e, e ∈ entries ↔
            ∃ row data, row ∈ rows ∧ assistant_data h row = Some data
                        ∧ zero_tokens data = false
                        ∧ e = convertMessageToUsageEntry row data)
    ∧ (∀ row data, assistant_data h row = Some data →
         AssistantMessageData.role data = "assistant"
         ∧ ∃ j, Host.JSON_parse h (MessageRow.data row) = Normal j
                ∧ payload_role j = Some (JStr "assistant"))
    ∧ (∀ e, e ∈ entries →
         is0 (LoadedUsageEntry.inputTokens (LoadedUsageEntry.usage e))
         && is0 (LoadedUsageEntry.outputTokens (LoadedUsageEntry.usage e)) = false).
Proof.
  intros Hrows Hall. exists (omap (usage_entry h) rows).
  rewrite (queried_messages_outcome _ _ Hrows), (messageRows_parsed _ _ _ Hall).
  assert (∀ e, e ∈ omap (usage_entry h) rows ↔
            ∃ row data, row ∈ rows ∧ assistant_data h row = Some data
                        ∧ zero_tokens data = false
                        ∧ e = convertMessageToUsageEntry row data) as Hmem.
  { intros e. rewrite list_elem_of_omap. split.
    - intros (row & Hrow & (data & ? & ? & ?)%usage_entry_Some). eauto 6.
    - intros (row & data & Hrow & ? & ? & ?). exists row. split; [done|].
      apply usage_entry_Some. eauto. }
  split; [done|]. split; [done|]. split; [exact Hmem|]. split.
  - intros row data. unfold assistant_data.
    destruct (Host.JSON_parse h (MessageRow.data row)) as [j|]; [|done].
    intros [Hrole Hdata]%schema_role. eauto.
  - intros e (row & data & _ & _ & Hz & ->)%Hmem. exact Hz.
Qed.

Lemma only_billable_assistant_entries_witness :
  ∃ entries,
    outcome (loadOpenCodeMessages host_default) = Normal entries
    ∧ entries = omap (usage_entry host_default) [row_sonnet; row_user; row_gpt; row_idle]
    ∧ length entries = 2.
Proof.
  destruct (only_billable_assistant_entries host_default
              [row_sonnet; row_user; row_gpt; row_idle]) as (entries & Hout & Heq & _).
  - vm_compute. reflexivity.
  - repeat constructor; eexists; vm_compute; reflexivity.
  - exists entries. repeat split; [exact Hout|exact Heq|].
    rewrite Heq. vm_compute. reflexivity.
Defined.

(** C10. Every usage entry the message loader returns has a [costUSD]
    that is [null] or strictly greater than zero: none carries a cost
    equal to zero, or a cost of at most zero. *)
Theorem returned_cost_null_or_positive (h : Host.t)
    (entries : list LoadedUsageEntry.t) :
  outcome (loadOpenCodeMessages h) = Normal entries →
  Forall cost_null_or_positive entries.
Proof.
  rewrite loadOpenCodeMessages_outcome.
  destruct (outcome (openDatabase h)) as [[db|]|e]; [| |done].
  - destruct (Host.select_message (conn db)) as [rows|e]; [|done].
    intros [_ ->]%messageRows_returns. cbn.
    apply Forall_forall. intros e (row & _ & Hrow)%list_elem_of_omap.
    apply usage_entry_Some in Hrow as (data & _ & _ & ->).
    unfold cost_null_or_positive, convertMessageToUsageEntry. cbn -[gt0 is0 le0].
    destruct (gt0 (AssistantMessageData.cost data)) eqn:Hgt; [|done].
    split; [done|]. by apply gt0_excludes.
  - intros [= <-]. constructor.
Qed.

Lemma returned_cost_null_or_positive_witness :
  ∃ entries,
    outcome (loadOpenCodeMessages host_default) = Normal entries
    ∧ LoadedUsageEntry.costUSD <$> entries = [Some 0.05%float; None]
    ∧ Forall cost_null_or_positive entries.
Proof.
  eexists. split; [vm_compute; reflexivity|].
  split; [vm_compute; reflexivity|].
  apply (returned_cost_null_or_positive host_default). vm_compute. reflexivity.
Defined.

End Skipping.

(* ===================================================================== *)
(** ** Session metadata *)
(* ===================================================================== *)

Section Sessions.
Import Js Eff Sqlite DataLoader Obs Examples.

Lemma queried_sessions_outcome (h : Host.t) (rows : list SessionRow.t) :
  queried_sessions h = Some rows →
  outcome (loadOpenCodeSessions h) = Normal (sessionRows rows ∅).
Proof.
  unfold queried_sessions.
  destruct (opened h) as [db|] eqn:Hdb; [|done]. cbn.
  rewrite (loadOpenCodeSessions_opened _ _ Hdb).
  destruct (Host.select_session (conn db)); [|done].
  by intros [= ->].
Qed.

Lemma sessionRows_snoc (rows : list SessionRow.t) (row : SessionRow.t)
    (m : gmap string LoadedSessionMetadata.t) :
  sessionRows (rows ++ [row]) m
  = <[SessionRow.id row := sessionMetadata row]> (sessionRows rows m).
Proof. unfold sessionRows. by rewrite foldl_app. Qed.

(** Every binding of the map comes from a row, under the id of the row. *)
Lemma sessionRows_lookup_Some (rows : list SessionRow.t) (sid : string)
    (meta : LoadedSessionMetadata.t) :
  sessionRows rows ∅ !! sid = Some meta →
  ∃ row, row ∈ rows ∧ SessionRow.id row = sid ∧ meta = sessionMetadata row.
Proof.
  induction rows as [|row rows IH] using rev_ind.
  - cbn. by rewrite lookup_empty.
  - rewrite sessionRows_snoc.
    destruct (decide (SessionRow.id row = sid)) as [<-|Hne].
    + rewrite lookup_insert_eq. intros [= <-].
      exists row. by rewrite elem_of_app, list_elem_of_singleton; auto.
    + rewrite lookup_insert_ne by done.
      intros (r & Hr & ? & ?)%IH. exists r. rewrite elem_of_app. auto.
Qed.

(** Every row has a binding under its id. *)
Lemma sessionRows_lookup_row (rows : list SessionRow.t) (row : SessionRow.t) :
  row ∈ rows → is_Some (sessionRows rows ∅ !! SessionRow.id row).
Proof.
  induction rows as [|r rows IH] using rev_ind.
  - by intros ?%elem_of_nil.
  - rewrite sessionRows_snoc, elem_of_app, list_elem_of_singleton.
    destruct (decide (SessionRow.id r = SessionRow.id row)) as [Heq|Hne].
    + rewrite Heq, lookup_insert_eq. eauto.
    + rewrite lookup_insert_ne by done. intros [Hin| ->]; [auto|done].
Qed.

(** With one row per id, the binding of a row is its own metadata. *)
Lemma sessionRows_lookup_NoDup (rows : list SessionRow.t) (row : SessionRow.t) :
  NoDup (SessionRow.id <$> rows) →
  row ∈ rows →
  sessionRows rows ∅ !! SessionRow.id row = Some (sessionMetadata row).
Proof.
  induction rows as [|r rows IH] using rev_ind.
  - by intros _ ?%elem_of_nil.
  - rewrite fmap_app, sessionRows_snoc, elem_of_app, list_elem_of_singleton. cbn.
    intros (Hnd & Hfresh & _)%NoDup_app [Hin| ->].
    + rewrite lookup_insert_ne; [by apply IH|].
      intros Heq. apply (Hfresh (SessionRow.id row)).
      * apply list_elem_of_fmap. eauto.
      * rewrite Heq. apply list_elem_of_singleton. done.
    + by rewrite lookup_insert_eq.
Qed.

Lemma sessionMetadata_title (row : SessionRow.t) :
  (SessionRow.title row = "" →
   LoadedSessionMetadata.title (sessionMetadata row) = SessionRow.id row)
  ∧ (SessionRow.title row ≠ "" →
     LoadedSessionMetadata.title (sessionMetadata row) = SessionRow.title row).
Proof. cbn. by case_bool_decide. Qed.

(** C9. The map [loadOpenCodeSessions] returns is keyed by session id:
    each of its bindings holds, under the id of a row of the session
    table, the metadata of a row with that id, and every row has a
    binding; when no two rows share an id, the binding of a row is its own
    metadata.  The title of the metadata of a row is the id of the row
    when the stored title is the empty string, and is the stored title,
    unchanged, otherwise. *)
Theorem session_title_defaults_to_id (h : Host.t) (rows : list SessionRow.t) :
  queried_sessions h = Some rows →
  ∃ sessionMap : gmap string LoadedSessionMetadata.t,
    outcome (loadOpenCodeSessions h) = Normal sessionMap
    ∧ (∀ sid meta, sessionMap !! sid = Some meta →
         LoadedSessionMetadata.id meta = sid
         ∧ ∃ row, row ∈ rows ∧ SessionRow.id row = sid ∧ meta = sessionMetadata row)
    ∧ (∀ row, row ∈ rows → is_Some (sessionMap !! SessionRow.id row))
    ∧ (NoDup (SessionRow.id <$> rows) →
       ∀ row, row ∈ rows →
         sessionMap !! SessionRow.id row = Some (sessionMetadata row))
    ∧ (∀ row,
         (SessionRow.title row = "" →
          LoadedSessionMetadata.title (sessionMetadata row) = SessionRow.id row)
         ∧ (SessionRow.title row ≠ "" →
            LoadedSessionMetadata.title (sessionMetadata row) = SessionRow.title row)).
Proof.
  intros Hrows%queried_sessions_outcome. exists (sessionRows rows ∅).
  split; [done|]. split; [|split; [|split]].
  - intros sid meta (row & Hrow & <- & ->)%sessionRows_lookup_Some. eauto.
  - apply sessionRows_lookup_row.
  - intros Hnd row. by apply sessionRows_lookup_NoDup.
  - apply sessionMetadata_title.
Qed.

Lemma session_title_defaults_to_id_witness :
  ∃ sessionMap : gmap string LoadedSessionMetadata.t,
    outcome (loadOpenCodeSessions host_default) = Normal sessionMap
    ∧ LoadedSessionMetadata.title <$> sessionMap !! "ses_012" = Some "ses_012"
    ∧ LoadedSessionMetadata.title <$> sessionMap !! "ses_456" = Some "Refactor loader".
Proof.
  destruct (session_title_defaults_to_id host_default session_rows)
    as (sessionMap & Hout & _ & _ & Hrow & _).
  - vm_compute. reflexivity.
  - exists sessionMap. split; [exact Hout|].
    assert (NoDup (SessionRow.id <$> session_rows)) as Hnd.
    { apply (bool_decide_unpack _). vm_compute. exact I. }
    split.
    + assert (sessionMap !! "ses_012" = Some (sessionMetadata (session "ses_012" "")))
        as ->; [|reflexivity].
      apply (Hrow Hnd (session "ses_012" "")). unfold session_rows. set_solver.
    + assert (sessionMap !! "ses_456"
              = Some (sessionMetadata (session "ses_456" "Refactor loader")))
        as ->; [|reflexivity].
      apply (Hrow Hnd (session "ses_456" "Refactor loader")).
      unfold session_rows. set_solver.
Defined.

End Sessions.

(* ===================================================================== *)
(** ** Pricing resolution *)
(* ===================================================================== *)

Section Resolution.
Import Js Pricing.
Context {LiteLLMModelPricing : Type}.
Implicit Types (super : string → Result (option LiteLLMModelPricing)).
Implicit Types (modelName alias : string).

(** The three ways a resolution goes, by the result of the direct
    lookup. *)
Lemma getModelPricing_failure super modelName (e : Error) :
  super modelName = Failure e →
  getModelPricing super modelName = (Failure e, [SuperGetModelPricing modelName]).
Proof. unfold getModelPricing. by intros ->. Qed.

Lemma getModelPricing_found super modelName (p : LiteLLMModelPricing) :
  super modelName = Success (Some p) →
  getModelPricing super modelName
  = (Success (Some p), [SuperGetModelPricing modelName]).
Proof. unfold getModelPricing. by intros ->. Qed.

Lemma getModelPricing_not_found super modelName :
  super modelName = Success None →
  getModelPricing super modelName
  = match CLAUDE_MODEL_ALIASES !! modelName with
    | Some alias =>
        (super alias,
         [SuperGetModelPricing modelName; AliasesGet modelName;
          LoggerDebug modelName alias; SuperGetModelPricing alias])
    | None =>
        (Success None, [SuperGetModelPricing modelName; AliasesGet modelName])
    end.
Proof. unfold getModelPricing. by intros ->. Qed.

(** C2. Pricing resolution first makes the direct lookup of the model
    name.  It consults the alias table only when that lookup succeeds
    with no match; if the table has an alias, the lookup is made again
    with the aliased name and its result is the result.  So a model name
    absent from the catalog and present in the alias table resolves to
    the pricing of the aliased record. *)
Theorem alias_fallback super modelName :
  (∃ rest, (getModelPricing super modelName).2 = SuperGetModelPricing modelName :: rest)
  ∧ (AliasesGet modelName ∈ (getModelPricing super modelName).2
     ↔ super modelName = Success None)
  ∧ (∀ p, super modelName = Success (Some p) →
       getModelPricing super modelName
       = (Success (Some p), [SuperGetModelPricing modelName]))
  ∧ (∀ alias,
       super modelName = Success None →
       CLAUDE_MODEL_ALIASES !! modelName = Some alias →
       getModelPricing super modelName
       = (super alias,
          [SuperGetModelPricing modelName; AliasesGet modelName;
           LoggerDebug modelName alias; SuperGetModelPricing alias]))
  ∧ (∀ (catalog : gmap string LiteLLMModelPricing) alias,
       catalog !! modelName = None →
       CLAUDE_MODEL_ALIASES !! modelName = Some alias →
       (getModelPricing (catalog_getModelPricing (Success catalog)) modelName).1
       = Success (catalog !! alias)).
Proof.
  split; [|split; [|split; [|split]]].
  - destruct (super modelName) as [[p|]|e] eqn:Hdirect.
    + rewrite (getModelPricing_found _ _ _ Hdirect). eauto.
    + rewrite (getModelPricing_not_found _ _ Hdirect).
      destruct (CLAUDE_MODEL_ALIASES !! modelName); eauto.
    + rewrite (getModelPricing_failure _ _ _ Hdirect). eauto.
  - destruct (super modelName) as [[p|]|e] eqn:Hdirect.
    + rewrite (getModelPricing_found _ _ _ Hdirect). cbn.
      rewrite list_elem_of_singleton. naive_solver.
    + rewrite (getModelPricing_not_found _ _ Hdirect).
      destruct (CLAUDE_MODEL_ALIASES !! modelName); cbn;
        rewrite !elem_of_cons; naive_solver.
    + rewrite (getModelPricing_failure _ _ _ Hdirect). cbn.
      rewrite list_elem_of_singleton. naive_solver.
  - apply getModelPricing_found.
  - intros alias Hdirect Halias.
    by rewrite (getModelPricing_not_found _ _ Hdirect), Halias.
  - intros catalog alias Hdirect Halias.
    rewrite getModelPricing_not_found; [by rewrite Halias|].
    cbn. by rewrite Hdirect.
Qed.

(** C7. A model name that cannot be resolved (the direct lookup finds no
    match, and the alias table has no alias for it or the lookup of its
    alias finds no match either) gets the successful result "no pricing",
    not a failure.  A failure of the direct lookup, which is how a failed
    acquisition of the catalog shows, is returned as it is, a failure
    value and so not "no pricing", and the alias table is not
    consulted. *)
Theorem unresolved_model_is_no_pricing super modelName :
  (super modelName = Success None →
   CLAUDE_MODEL_ALIASES !! modelName = None
   ∨ (∃ alias, CLAUDE_MODEL_ALIASES !! modelName = Some alias
               ∧ super alias = Success None) →
   (getModelPricing super modelName).1 = Success None)
  ∧ (∀ e, super modelName = Failure e →
       getModelPricing super modelName = (Failure e, [SuperGetModelPricing modelName])
       ∧ (getModelPricing super modelName).1 ≠ Success None
       ∧ AliasesGet modelName ∉ (getModelPricing super modelName).2)
  ∧ (∀ e,
       getModelPricing
         (catalog_getModelPricing (LiteLLMModelPricing := LiteLLMModelPricing) (Failure e))
         modelName
       = (Failure e, [SuperGetModelPricing modelName])).
Proof.
  split; [|split].
  - intros Hdirect Halias. rewrite (getModelPricing_not_found _ _ Hdirect).
    destruct Halias as [->|(alias & -> & Hretry)]; [done|]. by rewrite Hretry.
  - intros e Hdirect. rewrite (getModelPricing_failure _ _ _ Hdirect). cbn.
    split; [done|]. split; [done|]. by rewrite list_elem_of_singleton.
  - intros e. by apply getModelPricing_failure.
Qed.

End Resolution.

(* ===================================================================== *)
(** ** Where the data directory and the database file are looked for *)
(* ===================================================================== *)

Section Paths.
Import Js Eff Sqlite DataLoader Obs Examples.

(** Every character has a byte, and a string is the string of its
    characters. *)
Lemma chars_spec (n : nat) (s : string) :
  String.length s ≤ n →
  Forall (λ ch, ch ≠ "") (chars s) ∧ join (chars s) = s.
Proof.
  revert s. induction n as [|n IH]; intros s Hn.
  { destruct s; [by split; [constructor|]|cbn in Hn; lia]. }
  assert (∀ (chunk rest : string),
            chunk ≠ "" → String.length rest ≤ n →
            Forall (λ ch, ch ≠ "") (chunk :: chars rest)
            ∧ join (chunk :: chars rest) = String.append chunk rest) as Hleaf.
  { intros chunk rest Hchunk Hrest. destruct (IH rest Hrest) as [Hne Hjoin].
    split; [by constructor|]. unfold join in *. cbn. by rewrite Hjoin. }
  destruct s as [|a r1]; [by split; [constructor|]|]. cbn [chars].
  destruct (utf8_width a) as [|[|w]];
    [apply (Hleaf (String a "")); [done|cbn in Hn |- *; lia]..|].
  destruct r1 as [|b r2]; [apply (Hleaf (String a "")); [done|cbn in Hn |- *; lia]|].
  destruct w as [|w];
    [apply (Hleaf (String a (String b ""))); [done|cbn in Hn |- *; lia]|].
  destruct r2 as [|c r3];
    [apply (Hleaf (String a (String b ""))); [done|cbn in Hn |- *; lia]|].
  destruct w as [|w];
    [apply (Hleaf (String a (String b (String c "")))); [done|cbn in Hn |- *; lia]|].
  destruct r3 as [|d r4];
    [apply (Hleaf (String a (String b (String c "")))); [done|cbn in Hn |- *; lia]|].
  apply (Hleaf (String a (String b (String c (String d ""))))); [done|cbn in Hn |- *; lia].
Qed.

Lemma drop_white_space_nil (l : list string) :
  drop_white_space l = [] ↔ forallb is_white_space l = true.
Proof.
  induction l as [|ch l IH]; [done|]. cbn.
  by destruct (is_white_space ch).
Qed.

Lemma drop_white_space_head (l : list string) :
  drop_white_space l = []
  ∨ ∃ ch rest, drop_white_space l = ch :: rest ∧ is_white_space ch = false.
Proof.
  induction l as [|ch l IH]; [by left|]. cbn.
  destruct (is_white_space ch) eqn:Hch; [exact IH|]. right. eauto.
Qed.

Lemma drop_white_space_sub (l : list string) (ch : string) :
  ch ∈ drop_white_space l → ch ∈ l.
Proof.
  induction l as [|c l IH]; [done|]. cbn.
  destruct (is_white_space c); [|done]. intros Hin%IH. by apply list_elem_of_further.
Qed.

(** What is left of a list of characters is empty exactly when all of
    them are white space. *)
Lemma trimmed_nil (l : list string) :
  rev (drop_white_space (rev (drop_white_space l))) = []
  ↔ forallb is_white_space l = true.
Proof.
  rewrite <- drop_white_space_nil.
  destruct (drop_white_space_head l) as [->|(ch & rest & -> & Hch)]; [done|].
  split; [|done]. intros Hrev.
  assert (drop_white_space (rev (ch :: rest)) = []) as Hnil.
  { destruct (drop_white_space (rev (ch :: rest))); [done|].
    cbn in Hrev. by destruct (app_cons_not_nil _ _ _ (eq_sym Hrev)). }
  apply drop_white_space_nil in Hnil.
  rewrite forallb_forall in Hnil.
  rewrite (Hnil ch) in Hch; [done|]. apply in_rev. rewrite rev_involutive. by left.
Qed.

Lemma join_nil (l : list string) : Forall (λ ch, ch ≠ "") l → join l = "" → l = [].
Proof.
  destruct 1 as [|ch l Hch _]; [done|]. cbn.
  destruct ch; [done|]. done.
Qed.

(** [s.trim()] is empty exactly for a string of white space. *)
Lemma trim_empty (s : string) : trim s = "" ↔ blank s = true.
Proof.
  unfold trim, blank. rewrite <- trimmed_nil. split; [|by intros ->].
  apply join_nil. apply Forall_forall. intros ch Hin.
  destruct (chars_spec (String.length s) s) as [Hne _]; [done|].
  rewrite Forall_forall in Hne. apply Hne.
  apply list_elem_of_In, in_rev, list_elem_of_In, drop_white_space_sub in Hin.
  by apply list_elem_of_In, in_rev, list_elem_of_In, drop_white_space_sub in Hin.
Qed.

(** A string without white space at either end is its own [trim]. *)
Lemma trim_id (s : string) :
  (∀ ch rest, chars s = ch :: rest → is_white_space ch = false) →
  (∀ ch rest, rev (chars s) = ch :: rest → is_white_space ch = false) →
  trim s = s.
Proof.
  intros Hfront Hback. unfold trim.
  assert (drop_white_space (chars s) = chars s) as ->.
  { destruct (chars s) as [|ch rest] eqn:Hs; [done|]. cbn.
    by rewrite (Hfront ch rest). }
  assert (drop_white_space (rev (chars s)) = rev (chars s)) as ->.
  { destruct (rev (chars s)) as [|ch rest] eqn:Hs; [done|]. cbn.
    by rewrite (Hback ch rest). }
  rewrite rev_involutive. by destruct (chars_spec (String.length s) s).
Qed.

(** X1. An override that [trim] does not empty and that names a
    directory is the data directory, whatever the default directory
    holds; the database is then looked for in it alone: without an
    [opencode.db] there, no database is found even when the default
    directory has one. *)
Theorem override_directory_wins (h : Host.t) (envPath : string) :
  Host.env h !! OPENCODE_CONFIG_DIR_ENV = Some envPath →
  blank envPath = false →
  Host.isDirectorySync h (Host.path_resolve h envPath) = true →
  let dir := Host.path_resolve h envPath in
  getOpenCodePath h = Some dir
  ∧ getOpenCodeDbPath h
    = (if Host.isFileSync h (Host.path_join h dir OPENCODE_DB_FILENAME)
       then Some (Host.path_join h dir OPENCODE_DB_FILENAME) else None).
Proof.
  intros Henv Hblank Hdir dir.
  assert (getOpenCodePath h = Some dir) as Hpath.
  { unfold getOpenCodePath. rewrite Henv.
    rewrite bool_decide_true; [by rewrite Hdir|].
    rewrite trim_empty. by rewrite Hblank. }
  split; [done|]. unfold getOpenCodeDbPath. rewrite Hpath.
  by destruct (Host.isFileSync h _).
Qed.

Lemma override_directory_wins_witness :
  getOpenCodePath host_override = Some "/data/opencode"
  ∧ getOpenCodeDbPath host_override = Some "/data/opencode/opencode.db".
Proof.
  apply (override_directory_wins host_override "/data/opencode");
    vm_compute; reflexivity.
Defined.

(** X2. An override made of white space only, as [trim] knows white
    space (U+00A0, U+FEFF and the other space characters included), is
    ignored: the data directory is the default one if it exists, and
    there is none otherwise, even when the override as it stands names a
    directory. *)
Theorem blank_override_ignored (h : Host.t) (envPath : string) :
  Host.env h !! OPENCODE_CONFIG_DIR_ENV = Some envPath →
  blank envPath = true →
  getOpenCodePath h
  = if Host.isDirectorySync h (defaultPath h) then Some (defaultPath h) else None.
Proof.
  intros Henv Hblank%trim_empty. unfold getOpenCodePath, defaultPath.
  rewrite Henv. by rewrite bool_decide_false by (by intros []).
Qed.

Lemma blank_override_ignored_witness :
  Host.isDirectorySync host_nbsp (Host.path_resolve host_nbsp (bytes [194; 160; 32])) = true
  ∧ getOpenCodePath host_nbsp = Some "/home/u/.local/share/opencode"
  ∧ getOpenCodePath host_blank = Some "/home/u/.local/share/opencode".
Proof.
  split; [vm_compute; reflexivity|]. split.
  - apply (blank_override_ignored host_nbsp (bytes [194; 160; 32]));
      vm_compute; reflexivity.
  - apply (blank_override_ignored host_blank "  "); vm_compute; reflexivity.
Defined.

(** X3. Whatever [getOpenCodePath] returns is a directory, and is either
    the resolved override, when that is set and not blank, or the default
    directory; it returns [null] only when the default directory is
    missing. *)
Theorem data_directory_is_a_directory (h : Host.t) :
  (∀ dir, getOpenCodePath h = Some dir →
     Host.isDirectorySync h dir = true
     ∧ (dir = defaultPath h
        ∨ ∃ envPath, Host.env h !! OPENCODE_CONFIG_DIR_ENV = Some envPath
                     ∧ blank envPath = false
                     ∧ dir = Host.path_resolve h envPath))
  ∧ (getOpenCodePath h = None → Host.isDirectorySync h (defaultPath h) = false).
Proof.
  unfold getOpenCodePath, defaultPath.
  set (dflt := Host.path_join h (USER_HOME_DIR h) DEFAULT_OPENCODE_PATH).
  assert ((∀ dir, (if Host.isDirectorySync h dflt then Some dflt else None) = Some dir →
             Host.isDirectorySync h dir = true ∧ dir = dflt)
          ∧ ((if Host.isDirectorySync h dflt then Some dflt else None) = None →
             Host.isDirectorySync h dflt = false)) as [Hsome Hnone].
  { destruct (Host.isDirectorySync h dflt) eqn:Hdef; split; try done.
    by intros dir [= <-]. }
  destruct (Host.env h !! OPENCODE_CONFIG_DIR_ENV) as [envPath|].
  - case_bool_decide as Htrim.
    + destruct (Host.isDirectorySync h (Host.path_resolve h envPath)) eqn:Hdir.
      * split; [|done]. intros dir [= <-]. split; [done|]. right.
        exists envPath. split; [done|]. split; [|done].
        destruct (blank envPath) eqn:Hb; [|done]. by apply trim_empty in Hb.
      * split; [|done]. intros dir [? ->]%Hsome. auto.
    + split; [|done]. intros dir [? ->]%Hsome. auto.
  - split; [|done]. intros dir [? ->]%Hsome. auto.
Qed.

End Paths.

(* ===================================================================== *)
(** ** Failures of the database, and what a load has done by then *)
(* ===================================================================== *)

Section Failures.
Import Js Eff Sqlite DataLoader Obs Examples.

(** A run of [openSqlite], by what the SQLite module does. *)
Lemma openSqlite_run (h : Host.t) (path : string) :
  openSqlite h path
  = match construct h path with
    | Throw e => (Throw e, [])
    | Normal c =>
        (match Host.exec_pragma c with
         | Normal _ => Normal {| filePath := path; conn := c |}
         | Throw e => Throw e
         end,
         opening (runtime h) path)
    end.
Proof.
  unfold openSqlite, openBunSqlite, openNodeSqlite, new_Database, construct,
    opening, runtime.
  destruct (Host.has_Bun h).
  - destruct (Host.bun_sqlite h path) as [c|e]; eff_unfold; [|done].
    by destruct (Host.exec_pragma c).
  - destruct (Host.node_sqlite h path) as [c|e]; eff_unfold; [|done].
    by destruct (Host.exec_pragma c).
Qed.

(** A run of either loader when the database file is there. *)
Lemma loadOpenCodeMessages_run (h : Host.t) (path : string) :
  getOpenCodeDbPath h = Some path →
  loadOpenCodeMessages h
  = match construct h path with
    | Throw e => (Throw e, [])
    | Normal c =>
        match Host.exec_pragma c with
        | Throw e => (Throw e, opening (runtime h) path)
        | Normal _ =>
            (match Host.select_message c with
             | Normal rows => messageRows h rows []
             | Throw e => Throw e
             end,
             scoped_query h path MESSAGE_QUERY)
        end
    end.
Proof.
  intros Hpath. unfold loadOpenCodeMessages, openDatabase, prepare_all, close.
  rewrite Hpath, openSqlite_run.
  destruct (construct h path) as [c|e]; [|done].
  destruct (Host.exec_pragma c); eff_unfold; cbn; [|done].
  destruct (Host.select_message c) as [rows|e]; cbn; [|done].
  by destruct (messageRows h rows []).
Qed.

Lemma loadOpenCodeSessions_run (h : Host.t) (path : string) :
  getOpenCodeDbPath h = Some path →
  loadOpenCodeSessions h
  = match construct h path with
    | Throw e => (Throw e, [])
    | Normal c =>
        match Host.exec_pragma c with
        | Throw e => (Throw e, opening (runtime h) path)
        | Normal _ =>
            (match Host.select_session c with
             | Normal rows => Normal (sessionRows rows ∅)
             | Throw e => Throw e
             end,
             scoped_query h path SESSION_QUERY)
        end
    end.
Proof.
  intros Hpath. unfold loadOpenCodeSessions, openDatabase, prepare_all, close.
  rewrite Hpath, openSqlite_run.
  destruct (construct h path) as [c|e]; [|done].
  destruct (Host.exec_pragma c); eff_unfold; cbn; [|done].
  by destruct (Host.select_session c) as [rows|e].
Qed.

(** X5. Whatever happens, a loader opens at most the file
    [getOpenCodeDbPath] returns, read-only, with the SQLite module of the
    runtime, as its first call; every other call it makes is on that same
    file. *)
Theorem only_the_database_file_is_opened (h : Host.t) :
  opens_only h (trace (loadOpenCodeMessages h))
  ∧ opens_only h (trace (loadOpenCodeSessions h)).
Proof.
  assert (∀ path tr,
            getOpenCodeDbPath h = Some path →
            tr = [] ∨ tr = opening (runtime h) path ∨ (∃ sql, tr = scoped_query h path sql) →
            opens_only h tr) as Hcases.
  { intros path tr Hpath [-> | [-> | [sql ->]]]; [by left| |]; right.
    - exists path, [Exec path "PRAGMA journal_mode = WAL"].
      split; [done|]. split; [done|]. repeat constructor. eauto.
    - exists path, [Exec path "PRAGMA journal_mode = WAL"; Query path sql; Closed path].
      split; [done|]. split; [done|].
      repeat constructor; [exists "PRAGMA journal_mode = WAL"|exists sql|exists sql]; auto. }
  destruct (getOpenCodeDbPath h) as [path|] eqn:Hpath.
  - split; apply (Hcases path); try done.
    + rewrite (loadOpenCodeMessages_run _ _ Hpath).
      destruct (construct h path) as [c|e]; [|by left].
      destruct (Host.exec_pragma c); cbn; eauto.
    + rewrite (loadOpenCodeSessions_run _ _ Hpath).
      destruct (construct h path) as [c|e]; [|by left].
      destruct (Host.exec_pragma c); cbn; eauto.
  - destruct (loaders_absent _ Hpath) as [-> ->]. split; by left.
Qed.

(** X6. When the SQLite module refuses to open the database file, each
    loader throws what the module threw, having opened nothing: a file
    that cannot be opened is an error, unlike a file that is missing. *)
Theorem open_failure_is_thrown (h : Host.t) (path : string) (e : Error) :
  getOpenCodeDbPath h = Some path →
  construct h path = Throw e →
  loadOpenCodeMessages h = (Throw e, [])
  ∧ loadOpenCodeSessions h = (Throw e, []).
Proof.
  intros Hpath Hopen.
  rewrite (loadOpenCodeMessages_run _ _ Hpath), (loadOpenCodeSessions_run _ _ Hpath).
  by rewrite Hopen.
Qed.

Lemma open_failure_is_thrown_witness :
  loadOpenCodeMessages host_corrupt = (Throw (SqliteError "file is not a database"), [])
  ∧ loadOpenCodeSessions host_corrupt = (Throw (SqliteError "file is not a database"), []).
Proof.
  apply (open_failure_is_thrown host_corrupt "/home/u/.local/share/opencode/opencode.db");
    vm_compute; reflexivity.
Defined.

(** X7. When the pragma that [openSqlite] executes on the new connection
    throws, each loader throws that error after two calls, the opening of
    the file and the pragma: the connection is not closed, and no query
    is run. *)
Theorem pragma_failure_leaves_connection_open (h : Host.t) (path : string)
    (c : Host.Database) (e : Error) :
  getOpenCodeDbPath h = Some path →
  construct h path = Normal c →
  Host.exec_pragma c = Throw e →
  loadOpenCodeMessages h
  = (Throw e, [Opened (runtime h) path true; Exec path "PRAGMA journal_mode = WAL"])
  ∧ loadOpenCodeSessions h
    = (Throw e, [Opened (runtime h) path true; Exec path "PRAGMA journal_mode = WAL"])
  ∧ (Closed path ∉ trace (loadOpenCodeMessages h))
  ∧ (Closed path ∉ trace (loadOpenCodeSessions h)).
Proof.
  intros Hpath Hopen Hexec.
  rewrite (loadOpenCodeMessages_run _ _ Hpath), (loadOpenCodeSessions_run _ _ Hpath).
  rewrite Hopen, Hexec. cbn.
  split; [done|]. split; [done|].
  split; intros Hin; repeat (apply elem_of_cons in Hin as [Hin|Hin]; [done|]);
    by apply elem_of_nil in Hin.
Qed.

Lemma pragma_failure_leaves_connection_open_witness :
  loadOpenCodeMessages host_no_wal
  = (Throw (SqliteError "attempt to write a readonly database"),
     [Opened Node "/home/u/.local/share/opencode/opencode.db" true;
      Exec "/home/u/.local/share/opencode/opencode.db" "PRAGMA journal_mode = WAL"]).
Proof.
  refine (proj1 (pragma_failure_leaves_connection_open host_no_wal
    "/home/u/.local/share/opencode/opencode.db"
    (Host.Build_Database (Throw (SqliteError "attempt to write a readonly database"))
       (Normal session_rows) (Normal [row_sonnet]))
    (SqliteError "attempt to write a readonly database") _ _ _));
    vm_compute; reflexivity.
Defined.

(** X8. When the query throws on an opened database, the loader throws
    the same error, and it has closed the handle before: this holds of
    the message query and of the session query. *)
Theorem query_failure_is_rethrown_after_close (h : Host.t) (db : SqliteDatabase)
    (e : Error) :
  opened h = Some db →
  (Host.select_message (conn db) = Throw e →
   loadOpenCodeMessages h = (Throw e, scoped_query h (filePath db) MESSAGE_QUERY))
  ∧ (Host.select_session (conn db) = Throw e →
     loadOpenCodeSessions h = (Throw e, scoped_query h (filePath db) SESSION_QUERY)).
Proof.
  intros Hdb. split; intros Hq.
  - by rewrite (loadOpenCodeMessages_opened _ _ Hdb), Hq.
  - by rewrite (loadOpenCodeSessions_opened _ _ Hdb), Hq.
Qed.

Lemma query_failure_is_rethrown_after_close_witness :
  loadOpenCodeSessions host_no_tables
  = (Throw (SqliteError "no such table: session"),
     [Opened Node "/home/u/.local/share/opencode/opencode.db" true;
      Exec "/home/u/.local/share/opencode/opencode.db" "PRAGMA journal_mode = WAL";
      Query "/home/u/.local/share/opencode/opencode.db" SESSION_QUERY;
      Closed "/home/u/.local/share/opencode/opencode.db"]).
Proof.
  refine (proj2 (query_failure_is_rethrown_after_close host_no_tables
    {| filePath := "/home/u/.local/share/opencode/opencode.db";
       conn := Host.Build_Database (Normal tt)
                 (Throw (SqliteError "no such table: session"))
                 (Throw (SqliteError "no such table: message")) |}
    (SqliteError "no such table: session") _) _); vm_compute; reflexivity.
Defined.

(** X9. The first row whose text [JSON.parse] refuses makes the whole
    load throw that error: the entries of the rows before it are not
    returned, and the rows after it are not looked at. *)
Theorem unparsable_row_aborts_the_load (h : Host.t) (pre post : list MessageRow.t)
    (row : MessageRow.t) (e : Error) :
  queried_messages h = Some (pre ++ row :: post) →
  Forall (parses h) pre →
  Host.JSON_parse h (MessageRow.data row) = Throw e →
  outcome (loadOpenCodeMessages h) = Throw e.
Proof.
  intros Hrows Hpre Hrow.
  rewrite (queried_messages_outcome _ _ Hrows).
  by apply messageRows_throws.
Qed.

Lemma unparsable_row_aborts_the_load_witness :
  usage_entry host_torn row_sonnet ≠ None
  ∧ outcome (loadOpenCodeMessages host_torn) = Throw (SyntaxError "{'role':").
Proof.
  split; [vm_compute; discriminate|].
  apply (unparsable_row_aborts_the_load host_torn [row_sonnet] [row_gpt] row_torn).
  - vm_compute. reflexivity.
  - repeat constructor. eexists. vm_compute. reflexivity.
  - vm_compute. reflexivity.
Defined.

(** X10. A message load that returns has read every row: the text of
    each row the query returned is JSON, the entries are the entries of
    the rows in row order, and there are at most as many entries as
    rows. *)
Theorem returned_load_read_every_row (h : Host.t) (rows : list MessageRow.t)
    (entries : list LoadedUsageEntry.t) :
  queried_messages h = Some rows →
  outcome (loadOpenCodeMessages h) = Normal entries →
  Forall (parses h) rows
  ∧ entries = omap (usage_entry h) rows
  ∧ length entries ≤ length rows.
Proof.
  intros Hrows. rewrite (queried_messages_outcome _ _ Hrows).
  intros [Hall ->]%messageRows_returns. cbn.
  split; [done|]. split; [done|].
  clear. induction rows as [|row rows IH]; cbn; [done|].
  destruct (usage_entry h row); cbn; lia.
Qed.

Lemma returned_load_read_every_row_witness :
  Forall (parses host_default) [row_sonnet; row_user; row_gpt; row_idle].
Proof.
  refine (proj1 (returned_load_read_every_row host_default
    [row_sonnet; row_user; row_gpt; row_idle] _ _ _)).
  - vm_compute. reflexivity.
  - vm_compute. reflexivity.
Defined.

(** X11. The loop over the rows composes: running it on [rows1 ++ rows2]
    is running it on [rows1] and then, unless that threw, on [rows2] from
    the entries reached; and the entries it started from stay in front
    of its result, in their order. *)
Theorem message_loop_composes (h : Host.t) (rows1 rows2 : list MessageRow.t)
    (entries : list LoadedUsageEntry.t) :
  messageRows h (rows1 ++ rows2) entries
  = match messageRows h rows1 entries with
    | Normal mid => messageRows h rows2 mid
    | Throw e => Throw e
    end
  ∧ messageRows h rows1 entries
    = match messageRows h rows1 [] with
      | Normal out => Normal (entries ++ out)
      | Throw e => Throw e
      end.
Proof.
  split.
  - revert entries. induction rows1 as [|row rows1 IH]; intros entries; cbn; [done|].
    destruct (Host.JSON_parse h (MessageRow.data row)) as [j|e]; [|done].
    destruct (Valibot.safeParse assistantMessageDataSchema j) as [data|]; [|done].
    by destruct (zero_tokens data).
  - revert entries. induction rows1 as [|row rows1 IH]; intros entries; cbn.
    + by rewrite app_nil_r.
    + destruct (Host.JSON_parse h (MessageRow.data row)) as [j|e]; [|done].
      destruct (Valibot.safeParse assistantMessageDataSchema j) as [data|]; [|done].
      destruct (zero_tokens data); [done|].
      rewrite IH, (IH [convertMessageToUsageEntry row data]).
      destruct (messageRows h rows1 []); [|done]. by rewrite <- app_assoc.
Qed.

End Failures.

(* ===================================================================== *)
(** ** What the schema lets through *)
(* ===================================================================== *)

Section Schema.
Import Js Eff Valibot Sqlite DataLoader Obs Examples.

Lemma v_number_Some (j : json) (n : number) :
  v_number j = Some n → j = JNum n ∧ PrimFloat.is_nan n = false.
Proof.
  destruct j as [| |m| | |]; cbn; try done.
  destruct (PrimFloat.is_nan m) eqn:Hnan; [done|]. by intros [= <-].
Qed.

Lemma v_string_Some (j : json) (s : string) : v_string j = Some s → j = JStr s.
Proof. destruct j; cbn; try done. by intros [= <-]. Qed.

Lemma entry_Some {A : Type} (key : string) (schema : Schema A)
    (fields : gmap string json) (a : A) :
  entry key schema fields = Some a ↔ ∃ j, fields !! key = Some j ∧ schema j = Some a.
Proof.
  unfold entry. destruct (fields !! key) as [j|]; cbn.
  - split; [eauto|]. by intros (j' & [= <-] & ?).
  - split; [done|]. by intros (j' & ? & _).
Qed.

(** An object schema that found a key was given an object. *)
Lemma object_input_member (j : json) (fields : gmap string json) (key : string)
    (member : json) :
  object_input j = Some fields → fields !! key = Some member → j = JObj fields.
Proof.
  destruct j; cbn; try done.
  - intros [= <-]. by rewrite lookup_empty.
  - by intros [= <-].
Qed.

(** The entries of an accepted payload, one by one. *)
Lemma cache_schema_Some (j : json) (c : AssistantTokens.Cache) :
  assistantTokensCacheSchema j = Some c →
  ∃ fields, object_input j = Some fields
    ∧ entry "read" v_number fields = Some (AssistantTokens.read c)
    ∧ entry "write" v_number fields = Some (AssistantTokens.write c).
Proof.
  unfold assistantTokensCacheSchema.
  destruct (object_input j) as [fields|]; [|done]. cbn -[entry].
  destruct (entry "read" v_number fields) as [r|] eqn:Hr; [|done]. cbn -[entry].
  destruct (entry "write" v_number fields) as [w|] eqn:Hw; [|done]. cbn.
  intros [= <-]. exists fields. cbn. auto 10.
Qed.

Lemma tokens_schema_Some (j : json) (t : AssistantTokens.t) :
  assistantTokensSchema j = Some t →
  ∃ fields, object_input j = Some fields
    ∧ entry "input" v_number fields = Some (AssistantTokens.input t)
    ∧ entry "output" v_number fields = Some (AssistantTokens.output t)
    ∧ entry_optional_default "reasoning" v_number (JNum 0) fields
      = Some (AssistantTokens.reasoning t)
    ∧ entry_optional "total" v_number fields = Some (AssistantTokens.total t)
    ∧ entry "cache" assistantTokensCacheSchema fields = Some (AssistantTokens.cache t).
Proof.
  unfold assistantTokensSchema.
  destruct (object_input j) as [fields|]; [|done].
  cbn -[entry entry_optional entry_optional_default].
  destruct (entry "input" v_number fields) as [i|] eqn:Hi; [|done].
  cbn -[entry entry_optional entry_optional_default].
  destruct (entry "output" v_number fields) as [o|] eqn:Ho; [|done].
  cbn -[entry entry_optional entry_optional_default].
  destruct (entry_optional_default "reasoning" v_number (JNum 0) fields) as [r|] eqn:Hr; [|done].
  cbn -[entry entry_optional entry_optional_default].
  destruct (entry_optional "total" v_number fields) as [tt|] eqn:Htt; [|done].
  cbn -[entry entry_optional entry_optional_default].
  destruct (entry "cache" assistantTokensCacheSchema fields) as [c|] eqn:Hc; [|done]. cbn.
  intros [= <-]. exists fields. cbn. auto 10.
Qed.

Lemma time_schema_Some (j : json) (t : AssistantMessageData.Time) :
  assistantMessageTimeSchema j = Some t →
  ∃ fields, object_input j = Some fields
    ∧ entry "created" v_number fields = Some (AssistantMessageData.created t)
    ∧ entry_optional "completed" v_number fields
      = Some (AssistantMessageData.completed t).
Proof.
  unfold assistantMessageTimeSchema.
  destruct (object_input j) as [fields|]; [|done]. cbn -[entry entry_optional].
  destruct (entry "created" v_number fields) as [c|] eqn:Hc; [|done].
  cbn -[entry entry_optional].
  destruct (entry_optional "completed" v_number fields) as [d|] eqn:Hd; [|done]. cbn.
  intros [= <-]. exists fields. cbn. auto 10.
Qed.

Lemma data_schema_Some (j : json) (data : AssistantMessageData.t) :
  safeParse assistantMessageDataSchema j = Some data →
  ∃ fields, j = JObj fields
    ∧ entry "modelID" v_string fields = Some (AssistantMessageData.modelID data)
    ∧ entry "providerID" v_string fields = Some (AssistantMessageData.providerID data)
    ∧ entry "time" assistantMessageTimeSchema fields = Some (AssistantMessageData.time data)
    ∧ entry "cost" v_number fields = Some (AssistantMessageData.cost data)
    ∧ entry "tokens" assistantTokensSchema fields = Some (AssistantMessageData.tokens data).
Proof.
  unfold safeParse, assistantMessageDataSchema.
  destruct (object_input j) as [fields|] eqn:Hobj; [|done]. cbn -[entry].
  destruct (entry "role" (v_literal "assistant") fields) as [r|] eqn:Hrole; [|done].
  cbn -[entry].
  destruct (entry "modelID" v_string fields) as [m|] eqn:Hm; [|done]. cbn -[entry].
  destruct (entry "providerID" v_string fields) as [p|] eqn:Hp; [|done]. cbn -[entry].
  destruct (entry "time" assistantMessageTimeSchema fields) as [t|] eqn:Ht; [|done].
  cbn -[entry].
  destruct (entry "cost" v_number fields) as [c|] eqn:Hc; [|done]. cbn -[entry].
  destruct (entry "tokens" assistantTokensSchema fields) as [k|] eqn:Hk; [|done]. cbn.
  intros [= <-]. exists fields. cbn.
  apply entry_Some in Hrole as (member & Hmember & _).
  rewrite (object_input_member _ _ _ _ Hobj Hmember). auto 10.
Qed.

(** Reading a number or a string at a path of an accepted payload. *)
Lemma json_at_entry (key : string) (j member : json)
    (fields : gmap string json) (path : list string) :
  object_input j = Some fields →
  fields !! key = Some member →
  json_at (key :: path) j = json_at path member.
Proof.
  intros Hobj Hkey. rewrite (object_input_member _ _ _ _ Hobj Hkey). cbn.
  by rewrite Hkey.
Qed.

End Schema.

Section Payloads.
Import Js Eff Valibot Sqlite DataLoader Obs Examples.

(** X12. The schema ignores the keys it does not ask for: adding to a
    payload a member under any key other than [role], [modelID],
    [providerID], [time], [cost] and [tokens], or changing such a member,
    changes nothing of what the schema returns. *)
Theorem schema_ignores_unknown_keys (fields : gmap string json) (key : string)
    (member : json) :
  key ∉ payload_keys →
  safeParse assistantMessageDataSchema (JObj (<[key := member]> fields))
  = safeParse assistantMessageDataSchema (JObj fields).
Proof.
  unfold payload_keys. rewrite !not_elem_of_cons.
  intros (Hrole & Hmodel & Hprovider & Htime & Hcost & Htokens & _).
  unfold safeParse, assistantMessageDataSchema, entry. cbn.
  by rewrite !lookup_insert_ne by done.
Qed.

Lemma schema_ignores_unknown_keys_witness :
  safeParse assistantMessageDataSchema
    (JObj (<["finish" := JStr "stop"]>
       (Map_of_entries [ ("role", JStr "user") ])))
  = None.
Proof.
  rewrite (schema_ignores_unknown_keys (Map_of_entries [ ("role", JStr "user") ])
             "finish" (JStr "stop")).
  - vm_compute. reflexivity.
  - apply (bool_decide_unpack _). vm_compute. exact I.
Defined.

(** X13. An entry carries the numbers and strings of its row's payload,
    unchanged: its token counts are the numbers at [tokens.input],
    [tokens.output], [tokens.cache.write] (cache creation) and
    [tokens.cache.read], its model is the string at [modelID], its
    timestamp is built from the number at [time.created], and its session
    id is the [session_id] column of the row, not a member of the
    payload. *)
Theorem entry_carries_the_payload (h : Host.t) (row : MessageRow.t)
    (e : LoadedUsageEntry.t) :
  usage_entry h row = Some e →
  ∃ j created,
    Host.JSON_parse h (MessageRow.data row) = Normal j
    ∧ json_at ["tokens"; "input"] j
      = Some (JNum (LoadedUsageEntry.inputTokens (LoadedUsageEntry.usage e)))
    ∧ json_at ["tokens"; "output"] j
      = Some (JNum (LoadedUsageEntry.outputTokens (LoadedUsageEntry.usage e)))
    ∧ json_at ["tokens"; "cache"; "write"] j
      = Some (JNum (LoadedUsageEntry.cacheCreationInputTokens (LoadedUsageEntry.usage e)))
    ∧ json_at ["tokens"; "cache"; "read"] j
      = Some (JNum (LoadedUsageEntry.cacheReadInputTokens (LoadedUsageEntry.usage e)))
    ∧ json_at ["modelID"] j = Some (JStr (LoadedUsageEntry.model e))
    ∧ json_at ["time"; "created"] j = Some (JNum created)
    ∧ LoadedUsageEntry.timestamp e = new_Date created
    ∧ LoadedUsageEntry.sessionID e = MessageRow.session_id row.
Proof.
  intros (data & Hdata & _ & ->)%usage_entry_Some.
  unfold assistant_data in Hdata.
  destruct (Host.JSON_parse h (MessageRow.data row)) as [j|]; [|done].
  apply data_schema_Some in Hdata
    as (fields & -> & Hmodel & _ & Htime & _ & Htokens).
  apply entry_Some in Hmodel as (mj & Hmj & ->%v_string_Some).
  apply entry_Some in Htime as (tj & Htj & (tf & Htobj & Hcreated & _)%time_schema_Some).
  apply entry_Some in Hcreated as (cj & Hcj & [-> _]%v_number_Some).
  apply entry_Some in Htokens
    as (kj & Hkj & (kf & Hkobj & Hin & Hout & _ & _ & Hcache)%tokens_schema_Some).
  apply entry_Some in Hin as (ij & Hij & [-> _]%v_number_Some).
  apply entry_Some in Hout as (oj & Hoj & [-> _]%v_number_Some).
  apply entry_Some in Hcache as (hj & Hhj & (hf & Hhobj & Hread & Hwrite)%cache_schema_Some).
  apply entry_Some in Hread as (rj & Hrj & [-> _]%v_number_Some).
  apply entry_Some in Hwrite as (wj & Hwj & [-> _]%v_number_Some).
  pose proof (object_input_member _ _ _ _ Htobj Hcj) as ->.
  pose proof (object_input_member _ _ _ _ Hkobj Hij) as ->.
  pose proof (object_input_member _ _ _ _ Hhobj Hrj) as ->.
  eexists _, _. split; [done|]. cbn.
  rewrite Hkj, Hmj, Htj. cbn. rewrite Hij, Hoj, Hhj, Hcj. cbn. rewrite Hrj, Hwj.
  done.
Qed.

Lemma entry_carries_the_payload_witness :
  ∃ j created,
    Host.JSON_parse host_default (MessageRow.data row_sonnet) = Normal j
    ∧ json_at ["tokens"; "input"] j = Some (JNum 100)
    ∧ json_at ["tokens"; "output"] j = Some (JNum 200)
    ∧ json_at ["tokens"; "cache"; "write"] j = Some (JNum 25)
    ∧ json_at ["tokens"; "cache"; "read"] j = Some (JNum 50)
    ∧ json_at ["modelID"] j = Some (JStr "anthropic/claude-sonnet-4-5")
    ∧ json_at ["time"; "created"] j = Some (JNum created)
    ∧ new_Date 1700000000000 = new_Date created
    ∧ "ses_456" = MessageRow.session_id row_sonnet.
Proof.
  refine (entry_carries_the_payload host_default row_sonnet
    {| LoadedUsageEntry.timestamp := new_Date 1700000000000;
       LoadedUsageEntry.sessionID := "ses_456";
       LoadedUsageEntry.usage :=
         {| LoadedUsageEntry.inputTokens := 100;
            LoadedUsageEntry.outputTokens := 200;
            LoadedUsageEntry.cacheCreationInputTokens := 25;
            LoadedUsageEntry.cacheReadInputTokens := 50 |};
       LoadedUsageEntry.model := "anthropic/claude-sonnet-4-5";
       LoadedUsageEntry.costUSD := Some 0.05%float |} _).
  vm_compute. reflexivity.
Defined.

(** X14. The optional members of an accepted payload: [tokens.reasoning]
    is the number in the payload, or [0] when the payload has none;
    [tokens.total] and [time.completed] are the numbers in the payload,
    or are left out when the payload has none.  A payload in which one of
    them is present and is not a number, [null] included, is not
    accepted. *)
Theorem optional_members_default (h : Host.t) (row : MessageRow.t)
    (data : AssistantMessageData.t) :
  assistant_data h row = Some data →
  ∃ j,
    Host.JSON_parse h (MessageRow.data row) = Normal j
    ∧ match json_at ["tokens"; "reasoning"] j with
      | None => AssistantTokens.reasoning (AssistantMessageData.tokens data) = 0%float
      | Some member =>
          member = JNum (AssistantTokens.reasoning (AssistantMessageData.tokens data))
      end
    ∧ match json_at ["tokens"; "total"] j with
      | None => AssistantTokens.total (AssistantMessageData.tokens data) = None
      | Some member =>
          ∃ n, member = JNum n
               ∧ AssistantTokens.total (AssistantMessageData.tokens data) = Some n
      end
    ∧ match json_at ["time"; "completed"] j with
      | None => AssistantMessageData.completed (AssistantMessageData.time data) = None
      | Some member =>
          ∃ n, member = JNum n
               ∧ AssistantMessageData.completed (AssistantMessageData.time data) = Some n
      end.
Proof.
  unfold assistant_data.
  destruct (Host.JSON_parse h (MessageRow.data row)) as [j|]; [|done].
  intros (fields & -> & _ & _ & Htime & _ & Htokens)%data_schema_Some.
  apply entry_Some in Htime
    as (tj & Htj & (tf & Htobj & Hcreated & Hcompleted)%time_schema_Some).
  apply entry_Some in Hcreated as (cj & Hcj & _).
  apply entry_Some in Htokens
    as (kj & Hkj & (kf & Hkobj & Hin & _ & Hreasoning & Htotal & _)%tokens_schema_Some).
  apply entry_Some in Hin as (ij & Hij & _).
  pose proof (object_input_member _ _ _ _ Htobj Hcj) as ->.
  pose proof (object_input_member _ _ _ _ Hkobj Hij) as ->.
  exists (JObj fields). split; [done|]. cbn. rewrite Hkj, Htj. cbn.
  clear Htobj Hkobj. unfold entry_optional_default in Hreasoning.
  unfold entry_optional in Htotal, Hcompleted.
  split; [|split].
  - destruct (kf !! "reasoning") as [member|]; cbn in *.
    + by apply v_number_Some in Hreasoning as [-> _].
    + change (PrimFloat.is_nan 0) with false in Hreasoning.
      by injection Hreasoning as <-.
  - destruct (kf !! "total") as [member|]; cbn in *.
    + destruct (v_number member) as [n|] eqn:Hn; [|done]. cbn in Htotal.
      injection Htotal as <-. apply v_number_Some in Hn as [-> _]. eauto.
    + by injection Htotal as <-.
  - destruct (tf !! "completed") as [member|]; cbn in *.
    + destruct (v_number member) as [n|] eqn:Hn; [|done]. cbn in Hcompleted.
      injection Hcompleted as <-. apply v_number_Some in Hn as [-> _]. eauto.
    + by injection Hcompleted as <-.
Qed.

Lemma optional_members_default_witness :
  ∃ j,
    Host.JSON_parse host_default (MessageRow.data row_gpt) = Normal j
    ∧ match json_at ["tokens"; "reasoning"] j with
      | None => AssistantTokens.reasoning (AssistantMessageData.tokens gpt_data) = 0%float
      | Some member =>
          member = JNum (AssistantTokens.reasoning (AssistantMessageData.tokens gpt_data))
      end
    ∧ match json_at ["tokens"; "total"] j with
      | None => AssistantTokens.total (AssistantMessageData.tokens gpt_data) = None
      | Some member =>
          ∃ n, member = JNum n
               ∧ AssistantTokens.total (AssistantMessageData.tokens gpt_data) = Some n
      end
    ∧ match json_at ["time"; "completed"] j with
      | None => AssistantMessageData.completed (AssistantMessageData.time gpt_data) = None
      | Some member =>
          ∃ n, member = JNum n
               ∧ AssistantMessageData.completed (AssistantMessageData.time gpt_data) = Some n
      end.
Proof.
  apply (optional_members_default host_default row_gpt gpt_data).
  vm_compute. reflexivity.
Defined.

(** X15. No number of a returned entry is NaN: not a token count, and
    not a cost. *)
Theorem returned_numbers_are_not_NaN (h : Host.t) (entries : list LoadedUsageEntry.t) :
  outcome (loadOpenCodeMessages h) = Normal entries →
  Forall no_NaN entries.
Proof.
  rewrite loadOpenCodeMessages_outcome.
  destruct (outcome (openDatabase h)) as [[db|]|e]; [| |done].
  - destruct (Host.select_message (conn db)) as [rows|e]; [|done].
    intros [_ ->]%messageRows_returns. cbn.
    apply Forall_forall. intros e (row & _ & Hrow)%list_elem_of_omap.
    apply usage_entry_Some in Hrow as (data & Hdata & _ & ->).
    unfold assistant_data in Hdata.
    destruct (Host.JSON_parse h (MessageRow.data row)) as [j|]; [|done].
    apply data_schema_Some in Hdata as (fields & -> & _ & _ & _ & Hcost & Htokens).
    apply entry_Some in Hcost as (cj & _ & [_ Hcost]%v_number_Some).
    apply entry_Some in Htokens
      as (kj & _ & (kf & _ & Hin & Hout & _ & _ & Hcache)%tokens_schema_Some).
    apply entry_Some in Hin as (ij & _ & [_ Hin]%v_number_Some).
    apply entry_Some in Hout as (oj & _ & [_ Hout]%v_number_Some).
    apply entry_Some in Hcache as (hj & _ & (hf & _ & Hread & Hwrite)%cache_schema_Some).
    apply entry_Some in Hread as (rj & _ & [_ Hread]%v_number_Some).
    apply entry_Some in Hwrite as (wj & _ & [_ Hwrite]%v_number_Some).
    unfold no_NaN, convertMessageToUsageEntry. cbn -[gt0].
    repeat split; try done.
    intros c. destruct (gt0 _); [|done]. by intros [= <-].
  - intros [= <-]. constructor.
Qed.

Lemma returned_numbers_are_not_NaN_witness :
  ∃ entries,
    outcome (loadOpenCodeMessages host_default) = Normal entries
    ∧ length entries = 2
    ∧ Forall no_NaN entries.
Proof.
  eexists. split; [vm_compute; reflexivity|].
  split; [vm_compute; reflexivity|].
  apply (returned_numbers_are_not_NaN host_default). vm_compute. reflexivity.
Defined.

(** X16. Only an object passes the schema: a payload that is [null], a
    boolean, a number, a string or an array is not accepted, so its row
    gives no entry. *)
Theorem only_objects_pass_the_schema (h : Host.t) (row : MessageRow.t) (j : json) :
  Host.JSON_parse h (MessageRow.data row) = Normal j →
  (∀ fields, j ≠ JObj fields) →
  safeParse assistantMessageDataSchema j = None
  ∧ usage_entry h row = None.
Proof.
  intros Hj Hobj.
  assert (safeParse assistantMessageDataSchema j = None) as Hnone.
  { destruct (safeParse assistantMessageDataSchema j) as [data|] eqn:Hdata; [|done].
    apply data_schema_Some in Hdata as (fields & -> & _). by destruct (Hobj fields). }
  split; [done|]. unfold usage_entry, assistant_data. by rewrite Hj, Hnone.
Qed.

Lemma only_objects_pass_the_schema_witness :
  safeParse assistantMessageDataSchema (JArr [sonnet_payload]) = None
  ∧ usage_entry
      {| Host.env := ∅; Host.cwd := "/";
         Host.path_resolve := fun p => p;
         Host.path_join := fun a b => a +:+ "/" +:+ b;
         Host.isDirectorySync := fun _ => false;
         Host.isFileSync := fun _ => false;
         Host.has_Bun := false;
         Host.bun_sqlite := fun _ => Normal (database []);
         Host.node_sqlite := fun _ => Normal (database []);
         Host.JSON_parse := fun _ => Normal (JArr [sonnet_payload]) |}
      row_sonnet = None.
Proof.
  apply only_objects_pass_the_schema; [reflexivity|discriminate].
Defined.

End Payloads.

(* ===================================================================== *)
(** ** The session map as a whole *)
(* ===================================================================== *)

Section Session_map.
Import Js Eff Sqlite DataLoader Obs Examples.

Lemma sessionRows_app (rows1 rows2 : list SessionRow.t)
    (m : gmap string LoadedSessionMetadata.t) :
  sessionRows (rows1 ++ rows2) m = sessionRows rows2 (sessionRows rows1 m).
Proof. unfold sessionRows. by rewrite foldl_app. Qed.

(** Rows with other ids leave a binding as it is. *)
Lemma sessionRows_other (rows : list SessionRow.t) (sid : string)
    (m : gmap string LoadedSessionMetadata.t) :
  Forall (λ r, SessionRow.id r ≠ sid) rows →
  sessionRows rows m !! sid = m !! sid.
Proof.
  intros Hrows. revert m. induction Hrows as [|r rows Hr _ IH]; intros m; [done|].
  cbn. change (foldl _ ?m' rows) with (sessionRows rows m').
  by rewrite IH, lookup_insert_ne.
Qed.

(** A session load that returns has built its map from rows. *)
Lemma loadOpenCodeSessions_returns (h : Host.t)
    (sessionMap : gmap string LoadedSessionMetadata.t) :
  outcome (loadOpenCodeSessions h) = Normal sessionMap →
  ∃ rows, sessionMap = sessionRows rows ∅.
Proof.
  destruct (getOpenCodeDbPath h) as [path|] eqn:Hpath.
  - rewrite (loadOpenCodeSessions_run _ _ Hpath).
    destruct (construct h path) as [c|e]; [|done].
    destruct (Host.exec_pragma c); [|done]. cbn.
    destruct (Host.select_session c) as [rows|e]; [|done].
    intros [= <-]. eauto.
  - destruct (loaders_absent _ Hpath) as [_ ->]. intros [= <-]. by exists [].
Qed.

(** X17. When several rows of the session table have one id, the map
    holds the metadata of the last of them: a row after which no row has
    its id is the one bound to its id. *)
Theorem last_session_row_wins (h : Host.t) (pre post : list SessionRow.t)
    (row : SessionRow.t) :
  queried_sessions h = Some (pre ++ row :: post) →
  Forall (λ r, SessionRow.id r ≠ SessionRow.id row) post →
  ∃ sessionMap : gmap string LoadedSessionMetadata.t,
    outcome (loadOpenCodeSessions h) = Normal sessionMap
    ∧ sessionMap !! SessionRow.id row = Some (sessionMetadata row).
Proof.
  intros Hrows%queried_sessions_outcome Hpost. eexists. split; [exact Hrows|].
  rewrite (sessionRows_app pre (row :: post)). cbn.
  change (foldl _ ?m' post) with (sessionRows post m').
  by rewrite (sessionRows_other _ _ _ Hpost), lookup_insert_eq.
Qed.

Lemma last_session_row_wins_witness :
  ∃ sessionMap : gmap string LoadedSessionMetadata.t,
    outcome (loadOpenCodeSessions host_renamed) = Normal sessionMap
    ∧ sessionMap !! "ses_1" = Some (sessionMetadata (session "ses_1" "Final")).
Proof.
  apply (last_session_row_wins host_renamed
           [session "ses_1" "Draft"; session "ses_2" ""] [] (session "ses_1" "Final")).
  - vm_compute. reflexivity.
  - constructor.
Defined.

(** X18. The keys of the session map are the ids of the rows of the
    session table: the map has at most as many bindings as the table has
    rows, and exactly as many when no two rows share an id. *)
Theorem session_map_keys_are_row_ids (h : Host.t) (rows : list SessionRow.t) :
  queried_sessions h = Some rows →
  ∃ sessionMap : gmap string LoadedSessionMetadata.t,
    outcome (loadOpenCodeSessions h) = Normal sessionMap
    ∧ dom sessionMap = list_to_set (SessionRow.id <$> rows)
    ∧ size sessionMap ≤ length rows
    ∧ (NoDup (SessionRow.id <$> rows) → size sessionMap = length rows).
Proof.
  intros Hrows%queried_sessions_outcome. eexists. split; [exact Hrows|].
  assert (dom (sessionRows rows ∅) =@{gset string} list_to_set (SessionRow.id <$> rows))
    as Hdom.
  { clear. induction rows as [|row rows IH] using rev_ind.
    - cbn. by rewrite dom_empty_L.
    - rewrite sessionRows_snoc, dom_insert_L, fmap_app. cbn.
      by rewrite list_to_set_snoc_L, IH, (comm_L (∪)). }
  split; [exact Hdom|]. split.
  - clear. induction rows as [|row rows IH] using rev_ind; [done|].
    rewrite sessionRows_snoc, map_size_insert, length_app. cbn.
    destruct (sessionRows rows ∅ !! SessionRow.id row); cbn; lia.
  - intros Hnd. by rewrite <- (size_dom (D := gset string)), Hdom,
      size_list_to_set, length_fmap.
Qed.

Lemma session_map_keys_are_row_ids_witness :
  ∃ sessionMap : gmap string LoadedSessionMetadata.t,
    outcome (loadOpenCodeSessions host_renamed) = Normal sessionMap
    ∧ dom sessionMap = {[ "ses_1"; "ses_2" ]}
    ∧ size sessionMap ≤ 3.
Proof.
  destruct (session_map_keys_are_row_ids host_renamed
    [session "ses_1" "Draft"; session "ses_2" ""; session "ses_1" "Final"])
    as (sessionMap & Hout & Hdom & Hsize & _).
  - vm_compute. reflexivity.
  - exists sessionMap. split; [exact Hout|]. split; [|exact Hsize].
    rewrite Hdom. vm_compute. reflexivity.
Defined.

(** X19. In every map [loadOpenCodeSessions] returns, a binding under a
    session id holds metadata with that id, and its title is not empty
    unless the id itself is the empty string. *)
Theorem session_title_is_never_empty (h : Host.t)
    (sessionMap : gmap string LoadedSessionMetadata.t) :
  outcome (loadOpenCodeSessions h) = Normal sessionMap →
  ∀ sid meta, sessionMap !! sid = Some meta →
    LoadedSessionMetadata.id meta = sid
    ∧ (LoadedSessionMetadata.title meta = "" → sid = "").
Proof.
  intros [rows ->]%loadOpenCodeSessions_returns sid meta.
  intros (row & _ & <- & ->)%sessionRows_lookup_Some.
  split; [done|]. cbn. by case_bool_decide.
Qed.

Lemma session_title_is_never_empty_witness :
  ∃ sessionMap : gmap string LoadedSessionMetadata.t,
    outcome (loadOpenCodeSessions host_default) = Normal sessionMap
    ∧ ∀ sid meta, sessionMap !! sid = Some meta →
        LoadedSessionMetadata.id meta = sid
        ∧ (LoadedSessionMetadata.title meta = "" → sid = "").
Proof.
  eexists. split; [vm_compute; reflexivity|].
  apply (session_title_is_never_empty host_default). vm_compute. reflexivity.
Defined.

End Session_map.

(* ===================================================================== *)
(** ** Resolution, name by name *)
(* ===================================================================== *)

Section Resolution_by_name.
Import Js Pricing Obs Examples.
Context {LiteLLMModelPricing : Type}.
Implicit Types (super : string → Result (option LiteLLMModelPricing)).
Implicit Types (modelName alias : string).

(** No alias is itself aliased. *)
Lemma alias_is_not_aliased modelName alias :
  CLAUDE_MODEL_ALIASES !! modelName = Some alias →
  CLAUDE_MODEL_ALIASES !! alias = None.
Proof.
  unfold CLAUDE_MODEL_ALIASES at 1, Map_of_entries. cbn.
  intros H.
  repeat (apply lookup_insert_Some in H as [[_ <-]|[_ H]]; [vm_compute; reflexivity|]).
  by rewrite lookup_empty in H.
Qed.

(** X20. For a model name that has no alias, the resolution is the
    inherited lookup and nothing else: the same result, whatever it is,
    after one lookup. *)
Theorem unaliased_name_resolves_directly super modelName :
  CLAUDE_MODEL_ALIASES !! modelName = None →
  (getModelPricing super modelName).1 = super modelName
  ∧ ∀ step, step ∈ (getModelPricing super modelName).2 →
      step = SuperGetModelPricing modelName ∨ step = AliasesGet modelName.
Proof.
  intros Halias. destruct (super modelName) as [[p|]|e] eqn:Hdirect.
  - rewrite (getModelPricing_found _ _ _ Hdirect). cbn.
    split; [done|]. intros step ->%list_elem_of_singleton. by left.
  - rewrite (getModelPricing_not_found _ _ Hdirect), Halias. cbn.
    split; [done|].
    intros step [->|[->|[]%elem_of_nil]%elem_of_cons]%elem_of_cons; auto.
  - rewrite (getModelPricing_failure _ _ _ Hdirect). cbn.
    split; [done|]. intros step ->%list_elem_of_singleton. by left.
Qed.

(** X21. Alias resolution is one step deep and needs no more: no alias
    is itself an aliased name, so resolving an alias is its direct
    lookup, and a name whose direct lookup finds nothing resolves to what
    its alias resolves to. *)
Theorem alias_resolution_is_one_step super modelName alias :
  CLAUDE_MODEL_ALIASES !! modelName = Some alias →
  CLAUDE_MODEL_ALIASES !! alias = None
  ∧ (getModelPricing super alias).1 = super alias
  ∧ (super modelName = Success None →
     (getModelPricing super modelName).1 = (getModelPricing super alias).1).
Proof.
  intros Halias. pose proof (alias_is_not_aliased _ _ Halias) as Hplain.
  assert ((getModelPricing super alias).1 = super alias) as Hdirect.
  { destruct (super alias) as [[p|]|e] eqn:Ha.
    - by rewrite (getModelPricing_found _ _ _ Ha).
    - by rewrite (getModelPricing_not_found _ _ Ha), Hplain.
    - by rewrite (getModelPricing_failure _ _ _ Ha). }
  split; [done|]. split; [done|].
  intros Hnone. by rewrite Hdirect, (getModelPricing_not_found _ _ Hnone), Halias.
Qed.

(** X22. A resolution returns what the inherited lookup returned, for the
    name or, when the lookup of the name found nothing, for its alias: it
    makes up no pricing and no failure of its own.  It looks up the name
    first and at most one more name, the alias. *)
Theorem resolution_returns_a_lookup super modelName :
  ((getModelPricing super modelName).1 = super modelName
   ∧ lookups (getModelPricing super modelName).2 = [modelName])
  ∨ (super modelName = Success None
     ∧ ∃ alias, CLAUDE_MODEL_ALIASES !! modelName = Some alias
                ∧ (getModelPricing super modelName).1 = super alias
                ∧ lookups (getModelPricing super modelName).2 = [modelName; alias]).
Proof.
  destruct (super modelName) as [[p|]|e] eqn:Hdirect.
  - rewrite (getModelPricing_found _ _ _ Hdirect). by left.
  - rewrite (getModelPricing_not_found _ _ Hdirect).
    destruct (CLAUDE_MODEL_ALIASES !! modelName) as [alias|]; [right|left]; eauto.
  - rewrite (getModelPricing_failure _ _ _ Hdirect). by left.
Qed.

End Resolution_by_name.

Section Resolution_runs.
Import Js Pricing Obs Examples.

Lemma unaliased_name_resolves_directly_witness :
  (getModelPricing offline "claude-opus-4-6").1 = Success (Some 0.000005%float)
  ∧ (getModelPricing unreachable "openai/gpt-5.1").1 = Failure (OtherError "fetch failed").
Proof.
  split.
  - refine (proj1 (unaliased_name_resolves_directly offline "claude-opus-4-6" _)).
    vm_compute. reflexivity.
  - refine (proj1 (unaliased_name_resolves_directly unreachable "openai/gpt-5.1" _)).
    vm_compute. reflexivity.
Defined.

Lemma alias_resolution_is_one_step_witness :
  CLAUDE_MODEL_ALIASES !! "claude-sonnet-4-5-20250929" = None
  ∧ (getModelPricing offline "claude-sonnet-4-5-20250929").1
    = offline "claude-sonnet-4-5-20250929"
  ∧ (offline "anthropic/claude-sonnet-4.5" = Success None →
     (getModelPricing offline "anthropic/claude-sonnet-4.5").1
     = (getModelPricing offline "claude-sonnet-4-5-20250929").1).
Proof.
  apply (alias_resolution_is_one_step offline "anthropic/claude-sonnet-4.5"
           "claude-sonnet-4-5-20250929").
  vm_compute. reflexivity.
Defined.

End Resolution_runs.

(* ===================================================================== *)
(** ** Where the loaders break what is asked of them *)
(* ===================================================================== *)

Section Defects.
Import Js Eff Valibot Sqlite DataLoader Obs Examples.

(** C5. The load is aborted by a row all the same: [JSON.parse] at the
    head of the loop is not guarded.  On three rows with the role the
    query asks for, of which the first is valid, the second fails the
    schema and the third holds text that [JSON.parse] refuses, the second
    row is passed over, and then the load throws the [SyntaxError] of the
    third: the entry of the valid row is not returned. *)
Theorem unguarded_parse_loses_valid_rows :
  queried_messages host_json5 = Some [row_sonnet; row_partial; row_json5]
  ∧ is_Some (usage_entry host_json5 row_sonnet)
  ∧ Host.JSON_parse host_json5 (MessageRow.data row_partial) = Normal partial_payload
  ∧ payload_role partial_payload = Some (JStr "assistant")
  ∧ safeParse assistantMessageDataSchema partial_payload = None
  ∧ messageRows host_json5 [row_sonnet; row_partial] []
    = Normal (omap (usage_entry host_json5) [row_sonnet])
  ∧ loadOpenCodeMessages host_json5
    = (Throw (SyntaxError "{role:'assistant',cost:0.05}"),
       scoped_query host_json5 "/home/u/.local/share/opencode/opencode.db" MESSAGE_QUERY).
Proof.
  split; [vm_compute; reflexivity|].
  split; [vm_compute; eauto|].
  repeat split; vm_compute; reflexivity.
Qed.

(** C8. The handle is not closed on every path: [openSqlite] executes
    its pragma on the connection it has just made, before any [try].  On
    a database file where that pragma throws, the file has been opened,
    read-only, and each loader throws after the pragma without closing
    it. *)
Theorem pragma_throw_leaks_the_handle :
  let path := "/home/u/.local/share/opencode/opencode.db" in
  let e := SqliteError "attempt to write a readonly database" in
  (∃ c, construct host_no_wal path = Normal c ∧ Host.exec_pragma c = Throw e)
  ∧ opened host_no_wal = None
  ∧ loadOpenCodeMessages host_no_wal
    = (Throw e, [Opened Node path true; Exec path "PRAGMA journal_mode = WAL"])
  ∧ loadOpenCodeSessions host_no_wal
    = (Throw e, [Opened Node path true; Exec path "PRAGMA journal_mode = WAL"])
  ∧ (Closed path ∉ trace (loadOpenCodeMessages host_no_wal))
  ∧ (Closed path ∉ trace (loadOpenCodeSessions host_no_wal)).
Proof.
  intros path e.
  assert (loadOpenCodeMessages host_no_wal
          = (Throw e, [Opened Node path true; Exec path "PRAGMA journal_mode = WAL"]))
    as Hm by (vm_compute; reflexivity).
  assert (loadOpenCodeSessions host_no_wal
          = (Throw e, [Opened Node path true; Exec path "PRAGMA journal_mode = WAL"]))
    as Hs by (vm_compute; reflexivity).
  split; [eexists; split; vm_compute; reflexivity|].
  split; [vm_compute; reflexivity|].
  split; [exact Hm|]. split; [exact Hs|].
  rewrite Hm, Hs. cbn.
  split; intros Hin; repeat (apply elem_of_cons in Hin as [Hin|Hin]; [done|]);
    by apply elem_of_nil in Hin.
Qed.

End Defects.
